(** * A file manager web application: uploads, previews, text downloads

    Shallow embedding of [main.py] (a FastAPI application) and proofs about
    its route handlers.  Python text ([str]) is a list of Unicode code
    points, file contents are lists of bytes, the upload directory is a
    finite map from entry names to files and folders, and an exception is
    an explicit outcome of every operation that can raise one. *)

From Stdlib Require Import ZArith List Lia String Ascii.
From stdpp Require Import base option list gmap sorting.

Open Scope Z_scope.

(** Python [str]: code points.  Python [bytes]: integers in [0, 255]. *)
Abbreviation pystr := (list Z) (only parsing).
Abbreviation bytes := (list Z) (only parsing).

(** A literal written in the source, as code points. *)
Definition lit (s : string) : pystr :=
  map (fun a => Z.of_nat (nat_of_ascii a)) (list_ascii_of_string s).

(** ** The string operations of Python that the handlers call *)
Module Py.

Definition NL : Z := 10.
Definition CR : Z := 13.

(** [str.isspace] on one code point, as CPython's [Py_UNICODE_ISSPACE];
    the class [\s] of [re] on [str] patterns is the same predicate. *)
Definition isspace (c : Z) : bool :=
  ((9 <=? c) && (c <=? 13)) || ((28 <=? c) && (c <=? 32))
  || (c =? 133) || (c =? 160) || (c =? 5760)
  || ((8192 <=? c) && (c <=? 8202))
  || (c =? 8232) || (c =? 8233) || (c =? 8239) || (c =? 8287)
  || (c =? 12288).

Fixpoint lstrip (s : pystr) : pystr :=
  match s with
  | [] => []
  | c :: r => if isspace c then lstrip r else s
  end.

Definition rstrip (s : pystr) : pystr := rev (lstrip (rev s)).

(** [s.strip()] *)
Definition strip (s : pystr) : pystr := rstrip (lstrip s).

(** The truth value of [s.strip()], negated: [not s.strip()]. *)
Definition blank (s : pystr) : bool :=
  match strip s with [] => true | _ => false end.

(** [s.lower()] on the letters A-Z.  Code points above 127 are left as
    they are; none of them lower-cases into a letter of txt, pdf or
    docx, so the extension tests of the handlers are the ones of
    Python on every name. *)
Definition lower_char (c : Z) : Z :=
  if (65 <=? c) && (c <=? 90) then c + 32 else c.
Definition lower (s : pystr) : pystr := map lower_char s.

(** [s.split(sep)] for a separator of one character. *)
Fixpoint split (sep : Z) (s : pystr) : list pystr :=
  match s with
  | [] => [[]]
  | c :: r =>
      if c =? sep then [] :: split sep r
      else match split sep r with
           | h :: t => (c :: h) :: t
           | [] => [[c]]
           end
  end.

(** [sep.join(parts)] *)
Fixpoint join (sep : pystr) (parts : list pystr) : pystr :=
  match parts with
  | [] => []
  | [p] => p
  | p :: rest => p ++ sep ++ join sep rest
  end.

Fixpoint startswith (s p : pystr) : bool :=
  match p, s with
  | [], _ => true
  | a :: p', b :: s' => (a =? b) && startswith s' p'
  | _ :: _, [] => false
  end.

Definition endswith (s p : pystr) : bool := startswith (rev s) (rev p).

(** [s.rfind(c)]: the index of the last [c], or -1. *)
Fixpoint rfind_from (c : Z) (i : Z) (s : pystr) : Z :=
  match s with
  | [] => -1
  | x :: r =>
      let j := rfind_from c (i + 1) r in
      if 0 <=? j then j else if x =? c then i else -1
  end.
Definition rfind (c : Z) (s : pystr) : Z := rfind_from c 0 s.

(** Slices [s[:i]] and [s[i:]] for [i >= 0]. *)
Definition upto (i : Z) (s : pystr) : pystr := take (Z.to_nat i) s.
Definition from (i : Z) (s : pystr) : pystr := drop (Z.to_nat i) s.

(** [os.path.basename] (posixpath). *)
Definition basename (p : pystr) : pystr := from (rfind 47 p + 1) p.

(** [os.path.splitext(p)[0]] (genericpath._splitext with sep "/" and
    extsep "."): the part before the last dot, unless only dots lie
    between the last separator and that dot. *)
Fixpoint all_dots (s : pystr) : bool :=
  match s with
  | [] => true
  | c :: r => (c =? 46) && all_dots r
  end.
Definition splitext_root (p : pystr) : pystr :=
  let sepIndex := rfind 47 p in
  let dotIndex := rfind 46 p in
  if sepIndex <? dotIndex then
    if all_dots (from (sepIndex + 1) (upto dotIndex p)) then p
    else upto dotIndex p
  else p.

(** [filename.split(".")[-1].lower()] *)
Definition extension (filename : pystr) : pystr :=
  lower (List.last (split 46 filename) []).

End Py.

(** ** Regular expressions: sequences of quantified character classes

    [re.sub] is called with one pattern, [\n\s*\n+]: a sequence of
    character classes, each taken once, greedily any number of times, or
    greedily at least once.  The matcher is the backtracking matcher of
    [re] on such patterns. *)
Module Re.

Inductive quant := One | Star | Plus.
Definition item : Type := (Z -> bool) * quant.

(** Greedy repetition of class [c] followed by the continuation [k]:
    take as many characters as possible, give back one at a time.  The
    result is the number of characters matched. *)
Fixpoint star (c : Z -> bool) (k : pystr -> option nat) (s : pystr)
  : option nat :=
  match s with
  | x :: s' =>
      if c x then
        match star c k s' with
        | Some n => Some (S n)
        | None => k s
        end
      else k s
  | [] => k s
  end.

(** Match the pattern at the start of [s]. *)
Fixpoint match_here (p : list item) : pystr -> option nat :=
  match p with
  | [] => fun _ => Some 0%nat
  | (c, One) :: p' => fun s =>
      match s with
      | x :: s' => if c x then S <$> match_here p' s' else None
      | [] => None
      end
  | (c, Star) :: p' => star c (match_here p')
  | (c, Plus) :: p' => fun s =>
      match s with
      | x :: s' => if c x then S <$> star c (match_here p') s' else None
      | [] => None
      end
  end.

(** [re.sub(p, repl, s)]: scan from the left; [skip] counts the
    characters of the current match still to be dropped. *)
Fixpoint sub_from (p : list item) (repl : pystr) (skip : nat) (s : pystr)
  : pystr :=
  match s with
  | [] =>
      match skip, match_here p [] with
      | O, Some _ => repl
      | _, _ => []
      end
  | x :: s' =>
      match skip with
      | S k => sub_from p repl k s'
      | O =>
          match match_here p s with
          | Some (S n) => repl ++ sub_from p repl n s'
          | Some O => repl ++ x :: sub_from p repl 0 s'
          | None => x :: sub_from p repl 0 s'
          end
      end
  end.

Definition sub (p : list item) (repl s : pystr) : pystr :=
  sub_from p repl 0 s.

Definition is_nl (c : Z) : bool := c =? Py.NL.

(** The pattern [\n\s*\n+]. *)
Definition blank_lines : list item :=
  [(is_nl, One); (Py.isspace, Star); (is_nl, Plus)].

End Re.

(** ** Text files: UTF-8 and universal newlines *)
Module Codec.

Definition is_cont (b : Z) : bool := (128 <=? b) && (b <? 192).

(** [bytes.decode("utf-8", errors="ignore")] as CPython decodes: a
    well-formed sequence gives its code point; an invalid start byte is
    dropped; a sequence broken by a byte that cannot continue it is
    dropped up to that byte; a sequence cut by the end of the data is
    dropped. *)
Fixpoint decode_ignore (bs : bytes) : pystr :=
  match bs with
  | [] => []
  | ch :: t1 =>
      if ch <? 128 then ch :: decode_ignore t1
      else if ch <? 194 then decode_ignore t1
      else if ch <? 224 then
        match t1 with
        | [] => []
        | ch2 :: t2 =>
            if is_cont ch2
            then (ch * 64 + ch2 - (192 * 64 + 128)) :: decode_ignore t2
            else decode_ignore t1
        end
      else if ch <? 240 then
        match t1 with
        | [] => []
        | ch2 :: t2 =>
            if negb (is_cont ch2)
               || (if ch2 <? 160 then ch =? 224 else ch =? 237)
            then decode_ignore t1
            else
              match t2 with
              | [] => []
              | ch3 :: t3 =>
                  if is_cont ch3
                  then (ch * 4096 + ch2 * 64 + ch3
                        - (224 * 4096 + 128 * 64 + 128)) :: decode_ignore t3
                  else decode_ignore t2
              end
        end
      else if ch <? 245 then
        match t1 with
        | [] => []
        | ch2 :: t2 =>
            if negb (is_cont ch2)
               || (if ch2 <? 144 then ch =? 240 else ch =? 244)
            then decode_ignore t1
            else
              match t2 with
              | [] => []
              | ch3 :: t3 =>
                  if negb (is_cont ch3) then decode_ignore t2
                  else
                    match t3 with
                    | [] => []
                    | ch4 :: t4 =>
                        if is_cont ch4
                        then (ch * 262144 + ch2 * 4096 + ch3 * 64 + ch4
                              - (240 * 262144 + 128 * 4096 + 128 * 64 + 128))
                             :: decode_ignore t4
                        else decode_ignore t3
                    end
              end
        end
      else decode_ignore t1
  end.

(** Reading in text mode with [newline=None]: "\r\n" and "\r" become
    "\n". *)
Fixpoint universal_newlines (s : pystr) : pystr :=
  match s with
  | [] => []
  | c :: r =>
      if c =? Py.CR then
        match r with
        | d :: r' =>
            if d =? Py.NL then Py.NL :: universal_newlines r'
            else Py.NL :: universal_newlines r
        | [] => [Py.NL]
        end
      else c :: universal_newlines r
  end.

(** What [open(path, "r", encoding="utf-8", errors="ignore").read()]
    returns for a file holding [bs]. *)
Definition read_text (bs : bytes) : pystr :=
  universal_newlines (decode_ignore bs).

(** UTF-8 of one code point.  Text that arrives in a request is decoded
    text, a sequence of scalar values, on which the encoder of Python
    does not fail. *)
Definition encode_char (c : Z) : bytes :=
  if c <? 128 then [c]
  else if c <? 2048 then [192 + c / 64; 128 + c mod 64]
  else if c <? 65536 then
    [224 + c / 4096; 128 + (c / 64) mod 64; 128 + c mod 64]
  else
    [240 + c / 262144; 128 + (c / 4096) mod 64;
     128 + (c / 64) mod 64; 128 + c mod 64].

(** What [open(path, "w", encoding="utf-8")] and [f.write(s)] leave in
    the file (on POSIX, where "\n" is written as it is). *)
Definition encode (s : pystr) : bytes := flat_map encode_char s.


End Codec.

(** ** Exceptions *)

(** The exceptions the file system raises, and the ones of the document
    libraries, which carry their description. *)
Inductive exn :=
| IsADirectoryError (path : pystr)
| NotADirectoryError (path : pystr)
| FileExistsError (path : pystr)
| FileNotFoundError (path : pystr)
| LibraryError (description : pystr).

(** [str(e)].  The path of an [OSError] is shown between quotes. *)
Definition exn_str (e : exn) : pystr :=
  match e with
  | IsADirectoryError p => lit "[Errno 21] Is a directory: '" ++ p ++ lit "'"
  | NotADirectoryError p => lit "[Errno 20] Not a directory: '" ++ p ++ lit "'"
  | FileExistsError p => lit "[Errno 17] File exists: '" ++ p ++ lit "'"
  | FileNotFoundError p =>
      lit "[Errno 2] No such file or directory: '" ++ p ++ lit "'"
  | LibraryError d => d
  end.

(** ** State and exceptions

    A computation over a state [S] either returns or raises; the state
    it leaves is kept in both cases, as the effects of a Python block are
    when it raises half way. *)
Definition M (S A : Type) : Type := S -> (exn + A) * S.

Definition ret {S A} (a : A) : M S A := fun s => (inr a, s).
Definition raise {S A} (e : exn) : M S A := fun s => (inl e, s).
Definition bind {S A B} (m : M S A) (k : A -> M S B) : M S B :=
  fun s =>
    match m s with
    | (inr a, s') => k a s'
    | (inl e, s') => (inl e, s')
    end.

(** [try: m  except Exception as e: h e] *)
Definition try_except {S A} (m : M S A) (h : exn -> M S A) : M S A :=
  fun s =>
    match m s with
    | (inl e, s') => h e s'
    | r => r
    end.

Declare Scope py_scope.
Delimit Scope py_scope with py.
Notation "'let*' x := m 'in' k" := (bind m (fun x => k))
  (at level 10, x name, m at level 100, k at level 200) : py_scope.
Notation "'run' m 'in' k" := (bind m (fun _ => k))
  (at level 10, m at level 100, k at level 200) : py_scope.

(** [for x in l: body x] *)
Fixpoint for_each {S A} (l : list A) (body : A -> M S unit) : M S unit :=
  match l with
  | [] => ret tt
  | x :: rest => bind (body x) (fun _ => for_each rest body)
  end.

(** ** The upload directory *)

(** An entry of the upload directory: an uploaded file, or a folder of
    extracted images. *)
Inductive node :=
| File (data : bytes)
| Dir (entries : gmap (list Z) (list Z)).

Abbreviation store := (gmap (list Z) node) (only parsing).

Module Fs.

(** [os.path.join(UPLOAD_DIR, name)] for an entry name. *)
Definition path (name : pystr) : pystr := lit "uploads/" ++ name.

(** [os.path.exists(path name)] *)
Definition exists_ (fs : store) (name : pystr) : bool :=
  bool_decide (is_Some (fs !! name)).

(** [open(path, "wb")] followed by the write of [data]: creates the
    file or replaces its content; a folder cannot be opened. *)
Definition write_file (name : pystr) (data : bytes) : M store unit :=
  fun fs =>
    match fs !! name with
    | Some (Dir _) => (inl (IsADirectoryError (path name)), fs)
    | _ => (inr tt, <[name := File data]> fs)
    end.

(** [open(path, "rb").read()] *)
Definition read_file (name : pystr) : M store bytes :=
  fun fs =>
    match fs !! name with
    | Some (File data) => (inr data, fs)
    | Some (Dir _) => (inl (IsADirectoryError (path name)), fs)
    | None => (inl (FileNotFoundError (path name)), fs)
    end.

(** [os.remove(path)] *)
Definition remove (name : pystr) : M store unit :=
  fun fs =>
    match fs !! name with
    | Some (File _) => (inr tt, delete name fs)
    | Some (Dir _) => (inl (IsADirectoryError (path name)), fs)
    | None => (inl (FileNotFoundError (path name)), fs)
    end.

(** [shutil.rmtree(path)] *)
Definition rmtree (name : pystr) : M store unit :=
  fun fs =>
    match fs !! name with
    | Some (Dir _) => (inr tt, delete name fs)
    | Some (File _) => (inl (NotADirectoryError (path name)), fs)
    | None => (inl (FileNotFoundError (path name)), fs)
    end.

(** [os.makedirs(path, exist_ok=True)] *)
Definition makedirs (name : pystr) : M store unit :=
  fun fs =>
    match fs !! name with
    | None => (inr tt, <[name := Dir ∅]> fs)
    | Some (Dir _) => (inr tt, fs)
    | Some (File _) => (inl (FileExistsError (path name)), fs)
    end.

(** [open(os.path.join(path dir, name), "wb")] followed by the write
    of [data], for a file inside the folder [dir]. *)
Definition write_in (dir name : pystr) (data : bytes) : M store unit :=
  fun fs =>
    match fs !! dir with
    | Some (Dir d) => (inr tt, <[dir := Dir (<[name := data]> d)]> fs)
    | Some (File _) =>
        (inl (NotADirectoryError (path dir ++ lit "/" ++ name)), fs)
    | None => (inl (FileNotFoundError (path dir ++ lit "/" ++ name)), fs)
    end.

(** The order of [sorted] on [str]: code point by code point. *)
Fixpoint leb (a b : pystr) : bool :=
  match a, b with
  | [], _ => true
  | _ :: _, [] => false
  | x :: a', y :: b' => (x <? y) || ((x =? y) && leb a' b')
  end.

(** [sorted(os.listdir(UPLOAD_DIR))] *)
Definition listdir_sorted (fs : store) : list pystr :=
  merge_sort (fun a b => Is_true (leb a b)) (map_to_list fs).*1.

End Fs.

(** ** The document libraries

    PyMuPDF, python-docx and zipfile are outside the program.  Each is a
    function of what is stored under the path it is given: it raises, or
    it returns what the handlers read from the document. *)
Record libs := {
  (** [fitz.open(path)] and [page.get_text("text")] of every page *)
  fitz_open : node -> exn + list pystr;
  (** [Document(path)] and [p.text] of every paragraph *)
  Document : node -> exn + list pystr;
  (** [zipfile.ZipFile(path, "r")]: the names of [namelist()], each with
      what [read] gives for it *)
  ZipFile : node -> exn + list (pystr * (exn + bytes))
}.

(** ** Responses *)
Inductive response :=
| RedirectResponse (url : pystr) (status_code : Z)
| IndexPage (files : list pystr)
| ViewPage (filename content : pystr) (images : list pystr)
| PlainTextResponse (body : pystr) (status_code : Z)
    (headers : list (pystr * pystr)).

Definition is_nil {A} (l : list A) : bool :=
  match l with [] => true | _ => false end.

(** ** The route handlers *)
Section Handlers.

Context (L : libs).
Open Scope py_scope.

(** Hand the entry stored under [name] to a library. *)
Definition open_with {A} (lib : node -> exn + A) (name : pystr)
  : M store A :=
  fun fs =>
    match fs !! name with
    | Some n => (lib n, fs)
    | None => (inl (FileNotFoundError (Fs.path name)), fs)
    end.

(** [open(file_path, "r", encoding="utf-8", errors="ignore").read()] *)
Definition read_text (name : pystr) : M store pystr :=
  let* data := Fs.read_file name in ret (Codec.read_text data).

(** The frame of [view_file] inside its [try]: the directory and the
    list [images], which keeps what was appended when the block
    raises. *)
Definition frame : Type := store * list pystr.

Definition on_store {A} (m : M store A) : M frame A :=
  fun '(fs, images) => let '(r, fs') := m fs in (r, (fs', images)).

Definition images_append (p : pystr) : M frame unit :=
  fun '(fs, images) => (inr tt, (fs, images ++ [p])).

Definition get_images : M frame (list pystr) :=
  fun '(fs, images) => (inr images, (fs, images)).

Definition nonblank (s : pystr) : bool := negb (Py.blank s).

Definition is_media (file : pystr) : bool :=
  Py.startswith file (lit "word/media/")
  && (Py.endswith file (lit ".png") || Py.endswith file (lit ".jpg")
      || Py.endswith file (lit ".jpeg") || Py.endswith file (lit ".gif")).

(** One turn of the loop over [docx_zip.namelist()]: the image file is
    opened for writing, which empties it, before the archive entry is
    read. *)
Definition extract_image (filename img_dir : pystr)
    (entry : pystr * (exn + bytes)) : M frame unit :=
  let '(file, contents) := entry in
  if is_media file then
    let image_name := Py.basename file in
    run on_store (Fs.write_in img_dir image_name []) in
    let* data := (fun fr => (contents, fr)) in
    run on_store (Fs.write_in img_dir image_name data) in
    images_append
      (lit "/uploads/" ++ filename ++ lit "_images/" ++ image_name)
  else ret tt.

(** The branches on the extension in the [try] of [view_file]: the
    content before it is tidied. *)
Definition view_content (filename ext : pystr) : M frame pystr :=
  if decide (ext = lit "txt") then
    on_store (read_text filename)
  else if decide (ext = lit "pdf") then
    let* pages := on_store (open_with (fitz_open L) filename) in
    let extracted_text :=
      Py.strip <$> filter (fun t => Is_true (nonblank t)) pages in
    ret (Py.join [Py.NL; Py.NL] extracted_text)
  else if decide (ext = lit "docx") then
    let* texts := on_store (open_with (Document L) filename) in
    let paragraphs :=
      Py.strip <$> filter (fun t => Is_true (nonblank t)) texts in
    let content := Py.join [Py.NL] paragraphs in
    let img_dir := filename ++ lit "_images" in
    run on_store (Fs.makedirs img_dir) in
    let* namelist := on_store (open_with (ZipFile L) filename) in
    run for_each namelist (extract_image filename img_dir) in
    let* images := get_images in
    if Py.blank content && is_nil images
    then ret (lit "[This DOCX file appears empty or unsupported.]")
    else ret content
  else ret (lit "[Unsupported file format for preview.]").

(** [re.sub(r'\n\s*\n+', '\n\n', content.strip())] *)
Definition tidy (content : pystr) : pystr :=
  Re.sub Re.blank_lines [Py.NL; Py.NL] (Py.strip content).

(** The body of the [try] of [view_file]. *)
Definition view_try (filename ext : pystr) : M frame pystr :=
  let* content := view_content filename ext in
  ret (tidy content).

(** [GET /view/{filename}] *)
Definition view_file (filename : pystr) : M store response :=
  fun fs =>
    if negb (Fs.exists_ fs filename)
    then (inr (RedirectResponse (lit "/") 303), fs)
    else
      let ext := Py.extension filename in
      let '(r, (fs', images)) := view_try filename ext (fs, []) in
      let content :=
        match r with
        | inr content => content
        | inl e => lit "[Error reading file: " ++ exn_str e ++ lit "]"
        end in
      let content :=
        if Py.blank content && is_nil images
        then lit "[No readable content found.]"
        else content in
      (inr (ViewPage filename content images), fs').

(** The end of the [try] of [download_text], once [content] is set. *)
Definition download_reply (filename content : pystr) : response :=
  if Py.blank content
  then PlainTextResponse (lit "No readable text found.") 204 []
  else PlainTextResponse content 200
         [(lit "Content-Disposition",
           lit "attachment; filename=" ++ [34] ++ Py.splitext_root filename
           ++ lit "_extracted.txt" ++ [34])].


(** The body of the [try] of [download_text]. *)
Definition download_try (filename ext : pystr) : M store response :=
  if decide (ext = lit "txt") then
    let* content := read_text filename in
    ret (download_reply filename content)
  else if decide (ext = lit "pdf") then
    let* text_list := open_with (fitz_open L) filename in
    let content := Py.strip (Py.join [Py.NL; Py.NL] text_list) in
    ret (download_reply filename content)
  else if decide (ext = lit "docx") then
    let* texts := open_with (Document L) filename in
    let content :=
      Py.join [Py.NL] (filter (fun t => Is_true (nonblank t)) texts) in
    ret (download_reply filename content)
  else ret (PlainTextResponse (lit "Unsupported file type") 400 []).

(** [GET /download_text/{filename}] *)
Definition download_text (filename : pystr) : M store response :=
  fun fs =>
    if negb (Fs.exists_ fs filename)
    then (inr (PlainTextResponse (lit "File not found") 404 []), fs)
    else
      let ext := Py.extension filename in
      try_except (download_try filename ext)
        (fun e => ret (PlainTextResponse
                         (lit "Error extracting text: " ++ exn_str e) 500 []))
        fs.

End Handlers.

(** [GET /] *)
Definition home : M store response :=
  fun fs => (inr (IndexPage (Fs.listdir_sorted fs)), fs).

(** [POST /upload] with the name and the bytes of the uploaded file. *)
Definition upload_file (filename : pystr) (data : bytes) : M store response :=
  (run Fs.write_file filename data in
   ret (RedirectResponse (lit "/") 303))%py.

(** [POST /update/{filename}] *)
Definition update_file (filename new_content : pystr) : M store response :=
  let ext := Py.extension filename in
  if negb (bool_decide (ext ∈ [lit "txt"]))
  then ret (RedirectResponse (lit "/") 303)
  else
    (run Fs.write_file filename (Codec.encode (Py.strip new_content)) in
     ret (RedirectResponse (lit "/") 303))%py.

(** [GET /delete/{filename}] *)
Definition delete_file (filename : pystr) : M store response :=
  fun fs =>
    let img_dir := filename ++ lit "_images" in
    ((run (if Fs.exists_ fs filename then Fs.remove filename else ret tt) in
      run (fun fs1 =>
             (if Fs.exists_ fs1 img_dir then Fs.rmtree img_dir else ret tt)
               fs1) in
      ret (RedirectResponse (lit "/") 303))%py) fs.

(** ** Lines and blank lines *)
Module Lines.

(** A line is blank when it holds white space only. *)
Definition all_space (l : pystr) : bool := forallb Py.isspace l.

(** The lines after the first one, with every run of blank lines that
    has a line after it replaced by one empty line; [after_blank] tells
    that the line before was a blank line of the current run.  The last
    line is kept as it is. *)
Fixpoint squeeze_rest (after_blank : bool) (ls : list pystr)
  : list pystr :=
  match ls with
  | [] => []
  | [l] => [l]
  | l :: rest =>
      if all_space l then
        if after_blank then squeeze_rest true rest
        else [] :: squeeze_rest true rest
      else l :: squeeze_rest false rest
  end.

Definition squeeze (ls : list pystr) : list pystr :=
  match ls with
  | [] => []
  | l :: rest => l :: squeeze_rest false rest
  end.

(** The text with every run of blank lines between two lines collapsed
    into one empty line. *)
Definition collapse (s : pystr) : pystr :=
  Py.join [Py.NL] (squeeze (Py.split Py.NL s)).

(** No blank line between two lines but an empty one, and no two of
    them in a row: what [collapse] leaves as it is. *)
Fixpoint calm_rest (after_blank : bool) (ls : list pystr) : bool :=
  match ls with
  | [] => true
  | [l] => true
  | l :: rest =>
      if all_space l
      then negb after_blank && is_nil l && calm_rest true rest
      else calm_rest false rest
  end.

Definition calm (s : pystr) : bool :=
  match Py.split Py.NL s with
  | [] => true
  | _ :: rest => calm_rest false rest
  end.


(** A newline is reached from the start through white space only. *)
Fixpoint nl_ahead (s : pystr) : bool :=
  match s with
  | [] => false
  | c :: r =>
      if Re.is_nl c then true
      else if Py.isspace c then nl_ahead r
      else false
  end.

End Lines.

(** ** The directory the handlers maintain *)

(** Folders are created by [view_file] only, under the name of a file
    followed by [_images]. *)
Definition image_folders (fs : gmap (list Z) node) : Prop :=
  forall name d, fs !! name = Some (Dir d) -> exists f, name = f ++ lit "_images".

(** ** Sample documents and directories *)
Module Examples.

(** A PDF of three pages whose second page has no text, a DOCX of one
    paragraph with white space around its text, and no media. *)
Definition documents : libs :=
  {| fitz_open := fun _ => inr [lit "A"; []; lit "C"];
     Document := fun _ => inr [lit " hello "];
     ZipFile := fun _ => inr [] |}.

(** Libraries that reject every file. *)
Definition broken : libs :=
  {| fitz_open := fun _ => inl (LibraryError (lit "cannot open broken document"));
     Document := fun _ => inl (LibraryError (lit "Package not found"));
     ZipFile := fun _ => inl (LibraryError (lit "File is not a zip file")) |}.

Definition shelf : gmap (list Z) node :=
  <[lit "doc.pdf" := File (lit "%PDF-1.7")]>
    (<[lit "letter.docx" := File (lit "PK")]>
       (<[lit "notes.txt" := File (lit "old notes")]>
          (<[lit "blank.txt" := File (lit "   ")]>
             (<[lit "file.xyz" := File (lit "data")]> ∅)))).


(** The directory after [letter.docx] has been viewed. *)
Definition viewed : gmap (list Z) node :=
  snd (view_file documents (lit "letter.docx") shelf).



End Examples.

(** ** More sample documents *)
Module Samples.

(** A DOCX with one paragraph and an archive of two pictures around a
    part that is no picture. *)
Definition album : libs :=
  {| fitz_open := fun _ => inl (LibraryError (lit "no PDF"));
     Document := fun _ => inr [lit "Holiday"];
     ZipFile := fun _ =>
       inr [(lit "word/media/image1.png", inr [137; 80; 78; 71]);
            (lit "word/document.xml", inr [60; 63]);
            (lit "word/media/image2.jpg", inr [255; 216; 255])] |}.


(** A DOCX whose paragraphs hold white space only, without pictures. *)
Definition hollow : libs :=
  {| fitz_open := fun _ => inl (LibraryError (lit "no PDF"));
     Document := fun _ => inr [lit "  "; []];
     ZipFile := fun _ => inr [(lit "word/document.xml", inr [60; 63])] |}.

(** A PDF of three pages of two lines each, with white space around the
    text, and an empty page between them. *)
Definition report : libs :=
  {| fitz_open := fun _ =>
       inr [lit "Title" ++ [10] ++ lit "first page" ++ [10];
            [10];
            [32] ++ lit "second" ++ [10] ++ lit "page" ++ [10; 10];
            lit "third" ++ [10] ++ lit "page"];
     Document := fun _ => inl (LibraryError (lit "no DOCX"));
     ZipFile := fun _ => inl (LibraryError (lit "no zip")) |}.

End Samples.

(** ** The pages of a PDF *)
Module Pages.

(** Text that is not empty and has no white space at its ends. *)
Definition trimmed (s : list Z) : Prop :=
  exists x r y z,
    s = x :: r /\ s = y ++ [z]
    /\ Py.isspace x = false /\ Py.isspace z = false.

(** The texts that the view keeps of the pages of a document: the ones
    that are not blank, trimmed. *)
Definition kept (pages : list (list Z)) : list (list Z) :=
  Py.strip <$> filter (fun t => Is_true (nonblank t)) pages.

End Pages.

(** ** The pictures of an archive *)
Module Archive.




(** Every reference of [images] names a file of the image folder. *)
Definition served (filename : list Z)
    (fr : gmap (list Z) node * list (list Z)) : Prop :=
  forall p, p ∈ fr.2 ->
    exists b data d,
      p = lit "/uploads/" ++ filename ++ lit "_images/" ++ b
      /\ fr.1 !! (filename ++ lit "_images") = Some (Dir d)
      /\ d !! b = Some data.

End Archive.

(** ** Shorthands of the proofs *)

(** The substitution of the view at the start of a scan, the pattern
    [\n+], and the lines, which hold no newline. *)
Abbreviation sub0 := (Re.sub_from Re.blank_lines [Py.NL; Py.NL] 0).
Abbreviation nl_plus := (Re.match_here [(Re.is_nl, Re.Plus)]).
Abbreviation nl_free l := (forallb (fun c => negb (Re.is_nl c)) l = true).

(** The extensions that [download_text] knows, and the header of its
    attachment. *)
Abbreviation supported :=
  [lit "txt"; lit "pdf"; lit "docx"] (only parsing).

Abbreviation attachment filename :=
  [(lit "Content-Disposition",
    lit "attachment; filename=" ++ [34] ++ Py.splitext_root filename
    ++ lit "_extracted.txt" ++ [34])] (only parsing).



(** ** Facts about the string operations *)
Section StringFacts.

Lemma isspace_NL : Py.isspace Py.NL = true.
Proof. reflexivity. Qed.

Lemma is_nl_spec c : Re.is_nl c = true <-> c = Py.NL.
Proof. unfold Re.is_nl. apply Z.eqb_eq. Qed.

Lemma is_nl_space c : Re.is_nl c = true -> Py.isspace c = true.
Proof. intros H. apply is_nl_spec in H. subst. reflexivity. Qed.

Lemma join_cons sep p q rest :
  Py.join sep (p :: q :: rest) = p ++ sep ++ Py.join sep (q :: rest).
Proof. reflexivity. Qed.

Lemma split_nonempty sep s : Py.split sep s <> [].
Proof.
  destruct s as [|c r]; simpl; [discriminate|].
  destruct (c =? sep); [discriminate|].
  destruct (Py.split sep r); discriminate.
Qed.

Lemma join_split s : Py.join [Py.NL] (Py.split Py.NL s) = s.
Proof.
  induction s as [|c r IH]; simpl; [reflexivity|].
  destruct (c =? Py.NL) eqn:E.
  - apply Z.eqb_eq in E. subst c.
    pose proof (split_nonempty Py.NL r) as Hne.
    destruct (Py.split Py.NL r) as [|h t]; [contradiction|].
    rewrite join_cons. simpl. f_equal. exact IH.
  - pose proof (split_nonempty Py.NL r) as Hne.
    destruct (Py.split Py.NL r) as [|h t]; [contradiction|].
    destruct t as [|h' t].
    + simpl in *. f_equal. exact IH.
    + rewrite join_cons in *. simpl. f_equal. exact IH.
Qed.

Lemma split_lines_free s :
  Forall (fun l => forallb (fun c => negb (Re.is_nl c)) l = true)
         (Py.split Py.NL s).
Proof.
  induction s as [|c r IH]; simpl.
  - constructor; [reflexivity|constructor].
  - destruct (c =? Py.NL) eqn:E.
    + constructor; [reflexivity|exact IH].
    + pose proof (split_nonempty Py.NL r) as Hne.
      destruct (Py.split Py.NL r) as [|h t]; [contradiction|].
      inversion IH; subst. constructor; [|assumption].
      simpl. unfold Re.is_nl at 1. rewrite E. simpl. assumption.
Qed.

End StringFacts.

(** ** The substitution of [\n\s*\n+] collapses blank lines *)
Section BlankLines.

Lemma match_blank_lines_unfold c s :
  Re.match_here Re.blank_lines (c :: s)
  = if Re.is_nl c then S <$> Re.star Py.isspace nl_plus s else None.
Proof. reflexivity. Qed.

Lemma star_space_none Y :
  Lines.nl_ahead Y = false -> Re.star Py.isspace nl_plus Y = None.
Proof.
  induction Y as [|c r IH]; cbn [Re.star Lines.nl_ahead]; intros H;
    [reflexivity|].
  destruct (Re.is_nl c) eqn:En; [discriminate|].
  destruct (Py.isspace c).
  - rewrite (IH H). simpl. rewrite En. reflexivity.
  - simpl. rewrite En. reflexivity.
Qed.

Lemma star_nl_stop Y :
  Lines.nl_ahead Y = false ->
  Re.star Re.is_nl (fun _ => Some 0%nat) Y = Some 0%nat.
Proof.
  destruct Y as [|c r]; simpl; intros H; [reflexivity|].
  destruct (Re.is_nl c); [discriminate|reflexivity].
Qed.

Lemma star_space_some B Y :
  Lines.all_space B = true -> Lines.nl_ahead Y = false ->
  Re.star Py.isspace nl_plus (B ++ Py.NL :: Y)
  = Some (S (List.length B)).
Proof.
  intros HB HY. induction B as [|b B IH].
  - cbn [app Re.star List.length]. rewrite isspace_NL.
    rewrite (star_space_none Y HY).
    cbn [Re.match_here]. change (Re.is_nl Py.NL) with true. cbv iota.
    rewrite (star_nl_stop Y HY). reflexivity.
  - cbn [app Re.star List.length]. simpl in HB.
    apply andb_prop in HB as [Hb HB]. rewrite Hb, (IH HB). reflexivity.
Qed.

Lemma match_none Y :
  Lines.nl_ahead Y = false ->
  Re.match_here Re.blank_lines (Py.NL :: Y) = None.
Proof.
  intros H. rewrite match_blank_lines_unfold.
  change (Re.is_nl Py.NL) with true. cbv iota.
  rewrite (star_space_none Y H). reflexivity.
Qed.

Lemma match_some B Y :
  Lines.all_space B = true -> Lines.nl_ahead Y = false ->
  Re.match_here Re.blank_lines (Py.NL :: B ++ Py.NL :: Y)
  = Some (S (S (List.length B))).
Proof.
  intros HB HY. rewrite match_blank_lines_unfold.
  change (Re.is_nl Py.NL) with true. cbv iota.
  rewrite (star_space_some B Y HB HY). reflexivity.
Qed.

Lemma sub_skip p r a b :
  Re.sub_from p r (List.length a) (a ++ b) = Re.sub_from p r 0 b.
Proof. induction a as [|x a IH]; simpl; [reflexivity|exact IH]. Qed.

Lemma sub0_other c s :
  Re.is_nl c = false -> sub0 (c :: s) = c :: sub0 s.
Proof.
  intros H. cbn [Re.sub_from]. rewrite match_blank_lines_unfold, H.
  reflexivity.
Qed.

Lemma sub0_free l s : nl_free l -> sub0 (l ++ s) = l ++ sub0 s.
Proof.
  induction l as [|c l IH]; intros H; [reflexivity|].
  simpl in H. apply andb_prop in H as [Hc Hl]. apply negb_true_iff in Hc.
  rewrite <- app_comm_cons.
  rewrite (sub0_other c (l ++ s) Hc), (IH Hl). reflexivity.
Qed.

Lemma sub0_nil : sub0 [] = [].
Proof. reflexivity. Qed.

Lemma sub0_line l : nl_free l -> sub0 l = l.
Proof.
  intros H. rewrite <- (app_nil_r l) at 1.
  rewrite (sub0_free l [] H), sub0_nil. apply app_nil_r.
Qed.

Lemma sub0_keep Y :
  Lines.nl_ahead Y = false -> sub0 (Py.NL :: Y) = Py.NL :: sub0 Y.
Proof.
  intros H. cbn [Re.sub_from]. rewrite (match_none Y H). reflexivity.
Qed.

Lemma sub0_collapse B Y :
  Lines.all_space B = true -> Lines.nl_ahead Y = false ->
  sub0 (Py.NL :: B ++ Py.NL :: Y) = Py.NL :: Py.NL :: sub0 Y.
Proof.
  intros HB HY. cbn [Re.sub_from]. rewrite (match_some B Y HB HY).
  replace (B ++ Py.NL :: Y) with ((B ++ [Py.NL]) ++ Y)
    by (rewrite <- app_assoc; reflexivity).
  replace (S (List.length B)) with (List.length (B ++ [Py.NL]))
    by (rewrite length_app; simpl; lia).
  rewrite sub_skip. reflexivity.
Qed.

Lemma nl_ahead_line m X :
  nl_free m ->
  Lines.nl_ahead (m ++ X)
  = if Lines.all_space m then Lines.nl_ahead X else false.
Proof.
  induction m as [|c m IH]; intros H; [reflexivity|].
  simpl in H. apply andb_prop in H as [Hc Hm]. apply negb_true_iff in Hc.
  rewrite <- app_comm_cons. cbn [Lines.nl_ahead Lines.all_space forallb].
  rewrite Hc. destruct (Py.isspace c); simpl; [exact (IH Hm)|reflexivity].
Qed.

Lemma squeeze_rest_nonempty b ls :
  ls <> [] -> Lines.squeeze_rest b ls <> [].
Proof.
  revert b. induction ls as [|l ls IH]; intros b H; [contradiction|].
  destruct ls as [|l' ls]; [discriminate|].
  change (Lines.squeeze_rest b (l :: l' :: ls)) with
    (if Lines.all_space l
     then if b then Lines.squeeze_rest true (l' :: ls)
          else [] :: Lines.squeeze_rest true (l' :: ls)
     else l :: Lines.squeeze_rest false (l' :: ls)).
  destruct (Lines.all_space l); [|discriminate].
  destruct b; [apply IH|]; discriminate.
Qed.

Lemma join_cons_ne sep p rest :
  rest <> [] -> Py.join sep (p :: rest) = p ++ sep ++ Py.join sep rest.
Proof. destruct rest; [contradiction|reflexivity]. Qed.

Lemma join_nl_cons p q rest :
  Py.join [Py.NL] (p :: q :: rest)
  = p ++ Py.NL :: Py.join [Py.NL] (q :: rest).
Proof. reflexivity. Qed.

Lemma join_nl_cons_ne p rest :
  rest <> [] ->
  Py.join [Py.NL] (p :: rest) = p ++ Py.NL :: Py.join [Py.NL] rest.
Proof. destruct rest; [contradiction|reflexivity]. Qed.

Lemma all_space_snoc B m :
  Lines.all_space B = true -> Lines.all_space m = true ->
  Lines.all_space (B ++ Py.NL :: m) = true.
Proof.
  intros HB Hm. unfold Lines.all_space in *. rewrite forallb_app.
  rewrite HB. simpl. exact Hm.
Qed.

(** The two states of the scan: at the start of a line, and after a
    newline followed by white space that ends with a newline. *)
Lemma sub0_lines ls :
  Forall (fun l => nl_free l) ls ->
  (forall l, nl_free l ->
     sub0 (Py.join [Py.NL] (l :: ls))
     = Py.join [Py.NL] (l :: Lines.squeeze_rest false ls))
  /\ (ls <> [] -> forall B, Lines.all_space B = true ->
        sub0 (Py.NL :: B ++ Py.NL :: Py.join [Py.NL] ls)
        = Py.NL :: Py.NL :: Py.join [Py.NL] (Lines.squeeze_rest true ls)).
Proof.
  induction ls as [|m ls IH]; intros Hfree.
  - split; [|intros H; contradiction].
    intros l Hl. simpl. apply sub0_line, Hl.
  - inversion Hfree as [|? ? Hm Hls]; subst.
    destruct (IH Hls) as [IH1 IH2]. clear IH.
    destruct ls as [|m' ls].
    + (* m is the last line *)
      assert (Hna : Lines.nl_ahead m = false).
      { rewrite <- (app_nil_r m), (nl_ahead_line m [] Hm).
        destruct (Lines.all_space m); reflexivity. }
      split.
      * intros l Hl. cbn [Py.join Lines.squeeze_rest app].
        rewrite (sub0_free l _ Hl), (sub0_keep m Hna), (sub0_line m Hm).
        reflexivity.
      * intros _ B HB. cbn [Py.join Lines.squeeze_rest].
        rewrite (sub0_collapse B m HB Hna), (sub0_line m Hm). reflexivity.
    + assert (Hne : m' :: ls <> []) by discriminate.
      change (Lines.squeeze_rest false (m :: m' :: ls)) with
        (if Lines.all_space m
         then [] :: Lines.squeeze_rest true (m' :: ls)
         else m :: Lines.squeeze_rest false (m' :: ls)).
      change (Lines.squeeze_rest true (m :: m' :: ls)) with
        (if Lines.all_space m
         then Lines.squeeze_rest true (m' :: ls)
         else m :: Lines.squeeze_rest false (m' :: ls)).
      pose proof (squeeze_rest_nonempty true (m' :: ls) Hne) as Hsq.
      destruct (Lines.all_space m) eqn:Em.
      * (* a blank line with a line after it *)
        split.
        -- intros l Hl. rewrite !join_nl_cons.
           rewrite (sub0_free l _ Hl), (IH2 Hne m Em).
           rewrite (join_nl_cons_ne [] _ Hsq). reflexivity.
        -- intros _ B HB. rewrite join_nl_cons.
           replace (B ++ Py.NL :: m ++ Py.NL :: Py.join [Py.NL] (m' :: ls))
             with ((B ++ Py.NL :: m) ++ Py.NL :: Py.join [Py.NL] (m' :: ls))
             by (rewrite <- app_assoc; reflexivity).
           apply (IH2 Hne). apply all_space_snoc; assumption.
      * (* a line that is not blank *)
        assert (Hna : Lines.nl_ahead (Py.join [Py.NL] (m :: m' :: ls)) = false).
        { rewrite join_nl_cons, (nl_ahead_line m _ Hm), Em. reflexivity. }
        split.
        -- intros l Hl. rewrite (join_nl_cons l m).
           rewrite (sub0_free l _ Hl).
           rewrite (sub0_keep _ Hna), (IH1 m Hm).
           rewrite (join_nl_cons_ne l (m :: _)) by discriminate. reflexivity.
        -- intros _ B HB.
           rewrite (sub0_collapse B _ HB Hna), (IH1 m Hm). reflexivity.
Qed.

(** [re.sub(r'\n\s*\n+', '\n\n', s)] is the collapse of blank lines. *)
Lemma sub_blank_lines s :
  Re.sub Re.blank_lines [Py.NL; Py.NL] s = Lines.collapse s.
Proof.
  unfold Re.sub, Lines.collapse.
  pose proof (split_lines_free s) as Hfree.
  pose proof (split_nonempty Py.NL s) as Hne.
  rewrite <- (join_split s) at 1.
  destruct (Py.split Py.NL s) as [|l ls]; [contradiction|].
  inversion Hfree; subst.
  apply (proj1 (sub0_lines ls ltac:(assumption))). assumption.
Qed.

End BlankLines.

(** ** Text written as UTF-8 reads back *)
Section CodecFacts.





End CodecFacts.

(** ** Text that the tidying leaves as it is *)
Section CalmFacts.

Lemma calm_rest_squeeze b ls :
  Lines.calm_rest b ls = true -> Lines.squeeze_rest b ls = ls.
Proof.
  revert b. induction ls as [|l ls IH]; intros b H; [reflexivity|].
  destruct ls as [|l' ls]; [reflexivity|].
  change (Lines.calm_rest b (l :: l' :: ls)) with
    (if Lines.all_space l
     then negb b && is_nil l && Lines.calm_rest true (l' :: ls)
     else Lines.calm_rest false (l' :: ls)) in H.
  change (Lines.squeeze_rest b (l :: l' :: ls)) with
    (if Lines.all_space l
     then if b then Lines.squeeze_rest true (l' :: ls)
          else [] :: Lines.squeeze_rest true (l' :: ls)
     else l :: Lines.squeeze_rest false (l' :: ls)).
  destruct (Lines.all_space l).
  - apply andb_prop in H as [H Hrest]. apply andb_prop in H as [Hb Hl].
    destruct b; [discriminate|]. destruct l; [|discriminate].
    rewrite (IH true Hrest). reflexivity.
  - rewrite (IH false H). reflexivity.
Qed.

Lemma calm_collapse s : Lines.calm s = true -> Lines.collapse s = s.
Proof.
  unfold Lines.calm, Lines.collapse. intros H.
  rewrite <- (join_split s) at 2.
  destruct (Py.split Py.NL s) as [|l ls]; [reflexivity|].
  cbn [Lines.squeeze]. rewrite (calm_rest_squeeze false ls H). reflexivity.
Qed.

Lemma lstrip_keeps_last a x :
  Py.isspace x = false -> Py.lstrip (a ++ [x]) <> [].
Proof.
  intros Hx. induction a as [|c a IH]; simpl.
  - rewrite Hx. discriminate.
  - destruct (Py.isspace c); [exact IH|discriminate].
Qed.

(** Text that starts with a character that is not white space is not
    blank. *)
Lemma blank_head x s : Py.isspace x = false -> Py.blank (x :: s) = false.
Proof.
  intros Hx. unfold Py.blank, Py.strip, Py.rstrip.
  cbn [Py.lstrip]. rewrite Hx. cbn [rev].
  pose proof (lstrip_keeps_last (rev s) x Hx) as Hne.
  destruct (Py.lstrip (rev s ++ [x])) as [|y t] eqn:E; [contradiction|].
  cbn [rev]. destruct (rev t); reflexivity.
Qed.

Lemma blank_nil : Py.blank [] = true.
Proof. reflexivity. Qed.

Lemma lstrip_head s :
  match Py.lstrip s with
  | [] => True
  | x :: _ => Py.isspace x = false
  end.
Proof.
  induction s as [|c s IH]; simpl; [exact I|].
  destruct (Py.isspace c) eqn:E; [exact IH|exact E].
Qed.

Lemma lstrip_rev_head x s :
  Py.isspace x = false -> exists t, rev (Py.lstrip (rev (x :: s))) = x :: t.
Proof.
  intros Hx. cbn [rev].
  assert (H : forall a, exists t, Py.lstrip (a ++ [x]) = t ++ [x]).
  { induction a as [|c a IH]; simpl.
    - rewrite Hx. exists []. reflexivity.
    - destruct (Py.isspace c); [exact IH|].
      exists (c :: a). reflexivity. }
  destruct (H (rev s)) as [t Ht]. rewrite Ht, rev_app_distr.
  exists (rev t). reflexivity.
Qed.

(** Stripped text is empty or starts with a character that is not
    white space. *)
Lemma strip_head s :
  match Py.strip s with
  | [] => True
  | x :: _ => Py.isspace x = false
  end.
Proof.
  unfold Py.strip, Py.rstrip. pose proof (lstrip_head s) as H.
  destruct (Py.lstrip s) as [|x t]; [exact I|].
  destruct (lstrip_rev_head x t H) as [u Hu]. rewrite Hu. exact H.
Qed.

Lemma collapse_head x s :
  Py.isspace x = false ->
  exists t, Re.sub Re.blank_lines [Py.NL; Py.NL] (x :: s) = x :: t.
Proof.
  intros Hx. unfold Re.sub. cbn [Re.sub_from].
  rewrite match_blank_lines_unfold.
  destruct (Re.is_nl x) eqn:E.
  - apply is_nl_space in E. congruence.
  - eexists. reflexivity.
Qed.

End CalmFacts.

(** ** Names and extensions *)
Section NameFacts.

Lemma exists_lookup (fs : gmap (list Z) node) name :
  Fs.exists_ fs name
  = match fs !! name with Some _ => true | None => false end.
Proof.
  unfold Fs.exists_. destruct (fs !! name) as [n|].
  - apply bool_decide_eq_true. eauto.
  - apply bool_decide_eq_false. intros [x Hx]. discriminate.
Qed.

Lemma split_free sep t : sep ∉ t -> Py.split sep t = [t].
Proof.
  induction t as [|c t IH]; intros H; [reflexivity|].
  apply not_elem_of_cons in H as [Hc Ht]. cbn [Py.split].
  destruct (Z.eqb_spec c sep); [congruence|].
  rewrite (IH Ht). reflexivity.
Qed.

Lemma split_app_free sep f t :
  sep ∉ t ->
  exists init lst,
    Py.split sep f = init ++ [lst]
    /\ Py.split sep (f ++ t) = init ++ [lst ++ t].
Proof.
  intros Ht. induction f as [|c f (init & lst & Hf & Hft)].
  - exists [], []. split; [reflexivity|]. apply (split_free sep t Ht).
  - cbn [Py.split app]. rewrite Hf, Hft. destruct (c =? sep).
    + exists ([] :: init), lst. split; reflexivity.
    + destruct init as [|h init]; cbn [app].
      * exists [], (c :: lst). split; reflexivity.
      * exists ((c :: h) :: init), lst. split; reflexivity.
Qed.



Lemma rfind_from_free c i s : c ∉ s -> Py.rfind_from c i s = -1.
Proof.
  revert i. induction s as [|x s IH]; intros i H; [reflexivity|].
  apply not_elem_of_cons in H as [Hx Hs]. cbn [Py.rfind_from].
  rewrite (IH (i + 1) Hs). cbn.
  destruct (Z.eqb_spec x c); [congruence|reflexivity].
Qed.

Lemma rfind_from_last c i a t :
  c ∉ t -> 0 <= i ->
  Py.rfind_from c i (a ++ c :: t) = i + Z.of_nat (List.length a).
Proof.
  intros Ht. revert i. induction a as [|x a IH]; intros i Hi.
  - cbn [app Py.rfind_from List.length].
    rewrite (rfind_from_free c (i + 1) t Ht). cbn.
    rewrite Z.eqb_refl. lia.
  - cbn [app Py.rfind_from]. rewrite (IH (i + 1)) by lia.
    destruct (Z.leb_spec 0 (i + 1 + Z.of_nat (List.length a)));
      [|lia]. cbn [List.length]. lia.
Qed.

(** For a plain name [base.ext] the root that [os.path.splitext] gives
    is [base]. *)
Lemma splitext_root_plain base ext :
  47 ∉ base -> 47 ∉ ext -> 46 ∉ ext -> Py.all_dots base = false ->
  Py.splitext_root (base ++ 46 :: ext) = base.
Proof.
  intros Hb He Hd Hdots. unfold Py.splitext_root, Py.rfind.
  rewrite (rfind_from_free 47 0 (base ++ 46 :: ext)).
  2:{ intros H. apply elem_of_app in H as [H|H]; [contradiction|].
      apply elem_of_cons in H as [H|H]; [discriminate|contradiction]. }
  rewrite (rfind_from_last 46 0 base ext Hd) by lia.
  destruct (Z.ltb_spec (-1) (0 + Z.of_nat (List.length base))); [|lia].
  unfold Py.from, Py.upto. change (Z.to_nat (-1 + 1)) with 0%nat.
  rewrite drop_0.
  replace (Z.to_nat (0 + Z.of_nat (List.length base)))
    with (List.length base) by lia.
  rewrite take_app_length, Hdots. reflexivity.
Qed.

Lemma images_name_neq (f : list Z) : f ++ lit "_images" <> f.
Proof.
  intros H. apply (f_equal (@List.length Z)) in H.
  rewrite length_app in H. simpl in H. lia.
Qed.

End NameFacts.

(** ** The directory invariant *)
Section Invariant.

Lemma image_folders_empty : image_folders ∅.
Proof. intros name d H. rewrite lookup_empty in H. discriminate. Qed.

Lemma image_folders_insert_file fs name data :
  image_folders fs -> image_folders (<[name := File data]> fs).
Proof.
  intros Hfs k d H. destruct (decide (name = k)) as [->|Hne].
  - rewrite lookup_insert_eq in H. discriminate.
  - rewrite lookup_insert_ne in H by assumption. exact (Hfs k d H).
Qed.

Lemma image_folders_insert_dir fs f d :
  image_folders fs -> image_folders (<[f ++ lit "_images" := Dir d]> fs).
Proof.
  intros Hfs k d' H. destruct (decide (f ++ lit "_images" = k)) as [<-|Hne].
  - exists f. reflexivity.
  - rewrite lookup_insert_ne in H by assumption. exact (Hfs k d' H).
Qed.

Lemma image_folders_delete fs name :
  image_folders fs -> image_folders (delete name fs).
Proof.
  intros Hfs k d H. apply lookup_delete_Some in H as [_ H].
  exact (Hfs k d H).
Qed.


Lemma image_folders_shelf : image_folders Examples.shelf.
Proof.
  unfold Examples.shelf.
  repeat apply image_folders_insert_file. apply image_folders_empty.
Qed.

End Invariant.

(** ** Update *)
Section Update.

Lemma update_file_other filename new_content fs :
  Py.extension filename <> lit "txt" ->
  update_file filename new_content fs
  = (inr (RedirectResponse (lit "/") 303), fs).
Proof.
  intros H. unfold update_file.
  rewrite bool_decide_eq_false_2; [reflexivity|].
  intros Hin. apply list_elem_of_singleton in Hin. contradiction.
Qed.

Lemma update_file_txt filename new_content fs :
  Py.extension filename = lit "txt" ->
  update_file filename new_content fs
  = bind (Fs.write_file filename (Codec.encode (Py.strip new_content)))
      (fun _ => ret (RedirectResponse (lit "/") 303)) fs.
Proof.
  intros H. unfold update_file.
  rewrite bool_decide_eq_true_2; [reflexivity|].
  apply list_elem_of_singleton. exact H.
Qed.





End Update.

(** ** Delete *)
Section Delete.

Lemma delete_file_unfold filename fs :
  delete_file filename fs
  = match fs !! filename with
    | Some (Dir _) => (inl (IsADirectoryError (Fs.path filename)), fs)
    | o =>
        let fs1 := match o with Some _ => delete filename fs | None => fs end in
        match fs !! (filename ++ lit "_images") with
        | Some (Dir _) =>
            (inr (RedirectResponse (lit "/") 303),
             delete (filename ++ lit "_images") fs1)
        | Some (File _) =>
            (inl (NotADirectoryError (Fs.path (filename ++ lit "_images"))),
             fs1)
        | None => (inr (RedirectResponse (lit "/") 303), fs1)
        end
    end.
Proof.
  unfold delete_file, bind, ret. rewrite exists_lookup.
  pose proof (images_name_neq filename) as Hne.
  destruct (fs !! filename) as [[data|d]|] eqn:E.
  - unfold Fs.remove at 1. rewrite E. rewrite exists_lookup.
    rewrite lookup_delete_ne by congruence.
    destruct (fs !! (filename ++ lit "_images")) as [[data'|d']|] eqn:E';
      [| |reflexivity]; unfold Fs.rmtree;
      rewrite lookup_delete_ne by congruence; rewrite E'; reflexivity.
  - unfold Fs.remove at 1. rewrite E. reflexivity.
  - rewrite exists_lookup.
    destruct (fs !! (filename ++ lit "_images")) as [[data'|d']|] eqn:E';
      [| |reflexivity]; unfold Fs.rmtree; rewrite E'; reflexivity.
Qed.




End Delete.

(** ** Download *)
Section Download.

Context (L : libs).




End Download.


(** C1, on the code: a PDF of the pages "A", "" and "C".  The download
    joins all three texts, so that four newlines stand between "A" and
    "C", where the view skips the page without text and leaves one
    empty line between them. *)
Theorem download_pdf_blank_page :
  download_text Examples.documents (lit "doc.pdf") Examples.shelf
  = (inr (PlainTextResponse (lit "A" ++ [10; 10; 10; 10] ++ lit "C") 200
            [(lit "Content-Disposition",
              lit "attachment; filename=" ++ [34]
              ++ lit "doc_extracted.txt" ++ [34])]),
     Examples.shelf)
  /\ view_file Examples.documents (lit "doc.pdf") Examples.shelf
     = (inr (ViewPage (lit "doc.pdf") (lit "A" ++ [10; 10] ++ lit "C") []),
        Examples.shelf).
Proof. split; vm_compute; reflexivity. Qed.

(** C2, on the code: a DOCX whose one paragraph is " hello ".  The
    download keeps the white space around the text of the paragraph,
    the view removes it. *)
Theorem download_docx_untrimmed :
  fst (download_text Examples.documents (lit "letter.docx") Examples.shelf)
  = inr (PlainTextResponse (lit " hello ") 200
           [(lit "Content-Disposition",
             lit "attachment; filename=" ++ [34]
             ++ lit "letter_extracted.txt" ++ [34])])
  /\ fst (view_file Examples.documents (lit "letter.docx") Examples.shelf)
     = inr (ViewPage (lit "letter.docx") (lit "hello") []).
Proof. split; vm_compute; reflexivity. Qed.

(** ** View *)
Section View.

Context (L : libs).

Lemma view_file_found filename fs n :
  fs !! filename = Some n ->
  view_file L filename fs
  = let '(r, (fs', images)) :=
      view_try L filename (Py.extension filename) (fs, []) in
    let content :=
      match r with
      | inr content => content
      | inl e => lit "[Error reading file: " ++ exn_str e ++ lit "]"
      end in
    (inr (ViewPage filename
            (if Py.blank content && is_nil images
             then lit "[No readable content found.]" else content)
            images), fs').
Proof.
  intros H. unfold view_file. rewrite exists_lookup, H. reflexivity.
Qed.

Lemma tidy_collapse content :
  tidy content = Lines.collapse (Py.strip content).
Proof. apply sub_blank_lines. Qed.

(** Tidied text is blank only when it is empty. *)
Lemma blank_tidy content : Py.blank (tidy content) = is_nil (tidy content).
Proof.
  unfold tidy. pose proof (strip_head content) as H.
  destruct (Py.strip content) as [|x r]; [reflexivity|].
  destruct (collapse_head x r H) as [t ->].
  rewrite (blank_head x t H). reflexivity.
Qed.



Lemma view_file_shows fs filename text images fs' :
  is_Some (fs !! filename) ->
  view_content L filename (Py.extension filename) (fs, [])
  = (inr text, (fs', images)) ->
  view_file L filename fs
  = (inr (ViewPage filename
            (if is_nil (Lines.collapse (Py.strip text)) && is_nil images
             then lit "[No readable content found.]"
             else Lines.collapse (Py.strip text))
            images), fs').
Proof.
  intros [n Hn] Hc.
  rewrite (view_file_found filename fs n Hn).
  unfold view_try, bind. rewrite Hc. unfold ret.
  rewrite blank_tidy, tidy_collapse. reflexivity.
Qed.


(** C8: neither route lets an exception out.  When the [try] of the
    view raises, the page shows the description of the error between
    [[Error reading file: ] and []]; when the [try] of the download
    raises, the answer is 500 with the description in the body. *)
Theorem extraction_errors_caught fs filename :
  (exists r fs', view_file L filename fs = (inr r, fs'))
  /\ (exists r fs', download_text L filename fs = (inr r, fs'))
  /\ (forall e fs' images,
        is_Some (fs !! filename) ->
        view_try L filename (Py.extension filename) (fs, [])
        = (inl e, (fs', images)) ->
        view_file L filename fs
        = (inr (ViewPage filename
                  (lit "[Error reading file: " ++ exn_str e ++ lit "]")
                  images), fs'))
  /\ (forall e fs',
        is_Some (fs !! filename) ->
        download_try L filename (Py.extension filename) fs = (inl e, fs') ->
        download_text L filename fs
        = (inr (PlainTextResponse
                  (lit "Error extracting text: " ++ exn_str e) 500 []),
           fs')).
Proof.
  split; [|split; [|split]].
  - unfold view_file. destruct (negb (Fs.exists_ fs filename)); [eauto|].
    destruct (view_try L filename (Py.extension filename) (fs, []))
      as [r [fs' images]]. eauto.
  - unfold download_text. destruct (negb (Fs.exists_ fs filename)); [eauto|].
    unfold try_except.
    destruct (download_try L filename (Py.extension filename) fs)
      as [[e|r] fs']; unfold ret; eauto.
  - intros e fs' images [n Hn] H.
    rewrite (view_file_found filename fs n Hn), H.
    change (lit "[Error reading file: " ++ exn_str e ++ lit "]")
      with (91 :: (lit "Error reading file: " ++ exn_str e ++ lit "]")).
    cbv zeta. rewrite blank_head by reflexivity. reflexivity.
  - intros e fs' [n Hn] H. unfold download_text.
    rewrite exists_lookup, Hn. cbn [negb]. unfold try_except.
    rewrite H. reflexivity.
Qed.

End View.


Lemma extraction_errors_caught_witness :
  view_file Examples.broken (lit "doc.pdf") Examples.shelf
  = (inr (ViewPage (lit "doc.pdf")
            (lit "[Error reading file: cannot open broken document]") []),
     Examples.shelf)
  /\ download_text Examples.broken (lit "doc.pdf") Examples.shelf
     = (inr (PlainTextResponse
               (lit "Error extracting text: cannot open broken document")
               500 []),
        Examples.shelf).
Proof.
  split.
  - apply (proj1 (proj2 (proj2 (extraction_errors_caught Examples.broken
             Examples.shelf (lit "doc.pdf"))))
             (LibraryError (lit "cannot open broken document"))).
    + vm_compute. eauto.
    + vm_compute. reflexivity.
  - apply (proj2 (proj2 (proj2 (extraction_errors_caught Examples.broken
             Examples.shelf (lit "doc.pdf"))))
             (LibraryError (lit "cannot open broken document"))).
    + vm_compute. eauto.
    + vm_compute. reflexivity.
Defined.

(** ** Upload, then view *)
Section UploadView.






End UploadView.

(** ** The image folder of a DOCX file *)
Section ImageFolder.

Context (L : libs).







End ImageFolder.



(** ** Every handler keeps the directory invariant *)
Section Preservation.

Context (L : libs).

Lemma write_file_image_folders name data fs r fs' :
  Fs.write_file name data fs = (r, fs') ->
  image_folders fs -> image_folders fs'.
Proof.
  unfold Fs.write_file. intros H Hfs.
  destruct (fs !! name) as [[old|d]|]; injection H as <- <-;
    try apply image_folders_insert_file; exact Hfs.
Qed.

Lemma upload_file_image_folders filename data fs :
  image_folders fs -> image_folders (snd (upload_file filename data fs)).
Proof.
  intros Hfs. unfold upload_file, bind.
  destruct (Fs.write_file filename data fs) as [[e|[]] fs'] eqn:E;
    cbn [snd]; exact (write_file_image_folders _ _ _ _ _ E Hfs).
Qed.

Lemma update_file_image_folders filename new_content fs :
  image_folders fs ->
  image_folders (snd (update_file filename new_content fs)).
Proof.
  intros Hfs.
  destruct (decide (Py.extension filename = lit "txt")) as [E|E].
  - rewrite (update_file_txt _ _ _ E). unfold bind.
    destruct (Fs.write_file filename _ fs) as [[e|[]] fs'] eqn:Ew;
      cbn [snd]; exact (write_file_image_folders _ _ _ _ _ Ew Hfs).
  - rewrite (update_file_other _ _ _ E). exact Hfs.
Qed.

Lemma delete_file_image_folders filename fs :
  image_folders fs -> image_folders (snd (delete_file filename fs)).
Proof.
  intros Hfs. rewrite delete_file_unfold.
  destruct (fs !! filename) as [[data|d]|];
    [|exact Hfs|];
    destruct (fs !! (filename ++ lit "_images")) as [[data'|d']|];
    cbn [snd]; repeat apply image_folders_delete; exact Hfs.
Qed.

Lemma download_text_store filename fs :
  snd (download_text L filename fs) = fs.
Proof.
  unfold download_text. destruct (negb (Fs.exists_ fs filename));
    [reflexivity|].
  unfold try_except, download_try, read_text, open_with, bind, ret,
    Fs.read_file.
  repeat (destruct (decide _)); destruct (fs !! filename) as [[data|d]|];
    try reflexivity;
    try (destruct (fitz_open L _)); try (destruct (Document L _));
    reflexivity.
Qed.

Lemma extract_image_image_folders filename entry fs images r fs2 images2 :
  extract_image filename (filename ++ lit "_images") entry (fs, images)
  = (r, (fs2, images2)) ->
  image_folders fs -> image_folders fs2.
Proof.
  destruct entry as [file contents]. unfold extract_image.
  destruct (is_media file).
  - unfold bind, on_store, Fs.write_in.
    destruct (fs !! (filename ++ lit "_images")) as [[data|d]|] eqn:Ei;
      [intros H; injection H as <- <- <-; auto| |
       intros H; injection H as <- <- <-; auto].
    destruct contents as [e|data].
    + intros H Hfs. injection H as <- <- <-.
      apply image_folders_insert_dir, Hfs.
    + rewrite lookup_insert_eq. unfold images_append.
      intros H Hfs. injection H as <- <- <-.
      repeat apply image_folders_insert_dir. exact Hfs.
  - intros H. injection H as <- <- <-. auto.
Qed.

Lemma for_each_image_folders filename namelist :
  forall fs images r fs2 images2,
    for_each namelist
      (extract_image filename (filename ++ lit "_images")) (fs, images)
    = (r, (fs2, images2)) ->
    image_folders fs -> image_folders fs2.
Proof.
  induction namelist as [|entry rest IH]; intros fs images r fs2 images2.
  - intros H. injection H as <- <- <-. auto.
  - cbn [for_each]. unfold bind at 1.
    destruct (extract_image filename (filename ++ lit "_images") entry
                (fs, images)) as [[e|[]] [fs1 images1]] eqn:E;
      intros H Hfs;
      pose proof (extract_image_image_folders _ _ _ _ _ _ _ E Hfs) as H1.
    + injection H as <- <- <-. exact H1.
    + exact (IH _ _ _ _ _ H H1).
Qed.

Lemma view_content_image_folders filename ext fs r fs' images :
  view_content L filename ext (fs, []) = (r, (fs', images)) ->
  image_folders fs -> image_folders fs'.
Proof.
  unfold view_content.
  destruct (decide (ext = lit "txt")) as [E1|N1].
  { unfold on_store, read_text, bind, Fs.read_file, ret.
    destruct (fs !! filename) as [[data|d]|];
      intros H; injection H as <- <- <-; auto. }
  destruct (decide (ext = lit "pdf")) as [E2|N2].
  { unfold bind, on_store, open_with, ret.
    destruct (fs !! filename) as [n|];
      [destruct (fitz_open L n)|];
      intros H; injection H as <- <- <-; auto. }
  destruct (decide (ext = lit "docx")) as [E3|N3];
    [|intros H; injection H as <- <- <-; auto].
  unfold bind at 1. unfold on_store at 1, open_with at 1.
  destruct (fs !! filename) as [n|] eqn:En;
    [|intros H; injection H as <- <- <-; auto].
  destruct (Document L n) as [e|texts];
    [intros H; injection H as <- <- <-; auto|].
  unfold bind at 1. unfold on_store at 1.
  destruct (Fs.makedirs (filename ++ lit "_images") fs)
    as [[e|[]] fs1] eqn:Emk.
  { unfold Fs.makedirs in Emk.
    destruct (fs !! (filename ++ lit "_images")) as [[data|d]|];
      try discriminate Emk;
      injection Emk as <- <-; intros H; injection H as <- <- <-; auto. }
  intros H Hfs.
  assert (H1 : image_folders fs1).
  { unfold Fs.makedirs in Emk.
    destruct (fs !! (filename ++ lit "_images")) as [[data|d]|];
      try discriminate Emk; injection Emk as <-; try exact Hfs.
    apply image_folders_insert_dir, Hfs. }
  revert H. unfold bind at 1. unfold on_store at 1, open_with at 1.
  destruct (fs1 !! filename) as [n1|];
    [|intros H; injection H as <- <- <-; exact H1].
  destruct (ZipFile L n1) as [e|namelist];
    [intros H; injection H as <- <- <-; exact H1|].
  unfold bind at 1.
  destruct (for_each namelist
              (extract_image filename (filename ++ lit "_images"))
              (fs1, [])) as [[e|[]] [fs2 images2]] eqn:Ef;
    pose proof (for_each_image_folders _ _ _ _ _ _ _ Ef H1) as H2.
  - intros H. injection H as <- <- <-. exact H2.
  - unfold bind, get_images.
    match goal with
    | |- context [if ?b then _ else _] => destruct b
    end; intros H; injection H as <- <- <-; exact H2.
Qed.

Lemma view_file_image_folders filename fs :
  image_folders fs -> image_folders (snd (view_file L filename fs)).
Proof.
  intros Hfs. unfold view_file.
  destruct (negb (Fs.exists_ fs filename)); [exact Hfs|].
  unfold view_try, bind.
  destruct (view_content L filename (Py.extension filename) (fs, []))
    as [[e|c] [fs' images]] eqn:E; cbn [snd];
    exact (view_content_image_folders _ _ _ _ _ _ E Hfs).
Qed.

End Preservation.

(** ** The listing of the home page *)
Section Listing.

Lemma leb_total : Total (fun a b : list Z => Is_true (Fs.leb a b)).
Proof.
  intros a. induction a as [|x a IH]; intros b.
  - left. exact I.
  - destruct b as [|y b]; [right; exact I|]. cbn [Fs.leb].
    destruct (Z.ltb_spec x y) as [Hxy|Hxy]; [left; exact I|].
    destruct (Z.ltb_spec y x) as [Hyx|Hyx]; [right; exact I|].
    assert (x = y) by lia. subst y. rewrite Z.eqb_refl. cbn [orb andb].
    apply IH.
Qed.

Lemma listdir_sorted_spec (fs : gmap (list Z) node) name :
  name ∈ Fs.listdir_sorted fs <-> is_Some (fs !! name).
Proof.
  unfold Fs.listdir_sorted. rewrite merge_sort_Permutation. split.
  - intros H. apply list_elem_of_fmap in H as ([k n] & -> & H).
    apply elem_of_map_to_list in H. cbn [fst]. eauto.
  - intros [n Hn]. apply list_elem_of_fmap. exists (name, n).
    split; [reflexivity|]. apply elem_of_map_to_list. exact Hn.
Qed.

(** X1: the home page lists the names stored in the directory, files
    and image folders alike, each once and in ascending order of code
    points, and it leaves the directory as it is. *)
Theorem home_lists_entries (fs : gmap (list Z) node) :
  exists files,
    home fs = (inr (IndexPage files), fs)
    /\ (forall name, name ∈ files <-> is_Some (fs !! name))
    /\ NoDup files
    /\ Sorted (fun a b => Is_true (Fs.leb a b)) files.
Proof.
  exists (Fs.listdir_sorted fs). split; [reflexivity|].
  split; [apply listdir_sorted_spec|]. split.
  - unfold Fs.listdir_sorted. rewrite merge_sort_Permutation.
    apply NoDup_fst_map_to_list.
  - unfold Fs.listdir_sorted.
    apply (@Sorted_merge_sort _ _ _ leb_total).
Qed.

End Listing.

(** ** Uploads *)
Section Uploads.






End Uploads.

(** ** What the handlers leave untouched *)
Section Frames.

Context (L : libs).

Lemma extract_image_frame filename img entry fs images r fs2 images2 :
  extract_image filename img entry (fs, images) = (r, (fs2, images2)) ->
  forall k, k <> img -> fs2 !! k = fs !! k.
Proof.
  destruct entry as [file contents]. unfold extract_image.
  destruct (is_media file).
  - unfold bind, on_store, Fs.write_in.
    destruct (fs !! img) as [[data|d]|] eqn:Ei;
      [intros H; injection H as <- <- <-; reflexivity| |
       intros H; injection H as <- <- <-; reflexivity].
    destruct contents as [e|data].
    + intros H k Hk. injection H as <- <- <-.
      apply lookup_insert_ne. congruence.
    + rewrite lookup_insert_eq. unfold images_append.
      intros H k Hk. injection H as <- <- <-.
      rewrite !lookup_insert_ne by congruence. reflexivity.
  - intros H. injection H as <- <- <-. reflexivity.
Qed.

Lemma for_each_frame filename img namelist :
  forall fs images r fs2 images2,
    for_each namelist (extract_image filename img) (fs, images)
    = (r, (fs2, images2)) ->
    forall k, k <> img -> fs2 !! k = fs !! k.
Proof.
  induction namelist as [|entry rest IH]; intros fs images r fs2 images2.
  - intros H. injection H as <- <- <-. reflexivity.
  - cbn [for_each]. unfold bind at 1.
    destruct (extract_image filename img entry (fs, images))
      as [[e|[]] [fs1 images1]] eqn:E; intros H k Hk;
      pose proof (extract_image_frame _ _ _ _ _ _ _ _ E k Hk) as H1.
    + injection H as <- <- <-. exact H1.
    + rewrite (IH _ _ _ _ _ H k Hk). exact H1.
Qed.

Lemma view_content_frame filename ext fs r fs' images :
  view_content L filename ext (fs, []) = (r, (fs', images)) ->
  (forall k, k <> filename ++ lit "_images" -> fs' !! k = fs !! k)
  /\ (ext <> lit "docx" -> fs' = fs /\ images = []).
Proof.
  unfold view_content.
  destruct (decide (ext = lit "txt")) as [E1|N1].
  { unfold on_store, read_text, bind, Fs.read_file, ret.
    destruct (fs !! filename) as [[data|d]|];
      intros H; injection H as <- <- <-; auto. }
  destruct (decide (ext = lit "pdf")) as [E2|N2].
  { unfold bind, on_store, open_with, ret.
    destruct (fs !! filename) as [n|];
      [destruct (fitz_open L n)|];
      intros H; injection H as <- <- <-; auto. }
  destruct (decide (ext = lit "docx")) as [E3|N3];
    [|intros H; injection H as <- <- <-; auto].
  intros H. split; [|intros N; contradiction]. revert H.
  unfold bind at 1. unfold on_store at 1, open_with at 1.
  destruct (fs !! filename) as [n|] eqn:En;
    [|intros H; injection H as <- <- <-; auto].
  destruct (Document L n) as [e|texts];
    [intros H; injection H as <- <- <-; auto|].
  unfold bind at 1. unfold on_store at 1.
  destruct (Fs.makedirs (filename ++ lit "_images") fs)
    as [[e|[]] fs1] eqn:Emk.
  { unfold Fs.makedirs in Emk.
    destruct (fs !! (filename ++ lit "_images")) as [[data|d]|];
      try discriminate Emk;
      injection Emk as <- <-; intros H; injection H as <- <- <-; auto. }
  assert (H1 : forall k, k <> filename ++ lit "_images" ->
                         fs1 !! k = fs !! k).
  { intros k Hk. unfold Fs.makedirs in Emk.
    destruct (fs !! (filename ++ lit "_images")) as [[data|d]|];
      try discriminate Emk; injection Emk as <-; try reflexivity.
    apply lookup_insert_ne. congruence. }
  unfold bind at 1. unfold on_store at 1, open_with at 1.
  destruct (fs1 !! filename) as [n1|];
    [|intros H; injection H as <- <- <-; exact H1].
  destruct (ZipFile L n1) as [e|namelist];
    [intros H; injection H as <- <- <-; exact H1|].
  unfold bind at 1.
  destruct (for_each namelist
              (extract_image filename (filename ++ lit "_images"))
              (fs1, [])) as [[e|[]] [fs2 images2]] eqn:Ef;
    pose proof (for_each_frame _ _ _ _ _ _ _ _ Ef) as H2.
  - intros H k Hk. injection H as <- <- <-.
    rewrite (H2 k Hk). apply (H1 k Hk).
  - unfold bind, get_images.
    match goal with
    | |- context [if ?b then _ else _] => destruct b
    end; intros H k Hk; injection H as <- <- <-;
      rewrite (H2 k Hk); apply (H1 k Hk).
Qed.

(** X4: a download changes nothing in the directory, whatever is
    stored and whatever the libraries do. *)
Theorem download_text_read_only (filename : list Z)
    (fs : gmap (list Z) node) :
  snd (download_text L filename fs) = fs.
Proof. apply download_text_store. Qed.

(** X5: a view touches no entry but the image folder of the file it
    shows, so no uploaded file is ever changed by a view; for an
    extension other than docx it changes nothing at all and shows no
    image. *)
Theorem view_file_frame (filename : list Z) (fs : gmap (list Z) node) :
  (forall k, k <> filename ++ lit "_images" ->
     snd (view_file L filename fs) !! k = fs !! k)
  /\ (Py.extension filename <> lit "docx" ->
      snd (view_file L filename fs) = fs
      /\ forall name content images,
           fst (view_file L filename fs)
           = inr (ViewPage name content images) -> images = []).
Proof.
  unfold view_file.
  destruct (negb (Fs.exists_ fs filename)).
  { split; [reflexivity|]. intros _. split; [reflexivity|].
    intros name content images H. discriminate H. }
  unfold view_try, bind.
  destruct (view_content L filename (Py.extension filename) (fs, []))
    as [[e|c] [fs' images]] eqn:E;
    destruct (view_content_frame _ _ _ _ _ _ E) as [Hk Hx];
    (split; [exact Hk|]); intros N; destruct (Hx N) as [-> ->];
    (split; [reflexivity|]); intros name content images H;
    exact (eq_sym (f_equal
             (fun r => match r with
                       | inr (ViewPage _ _ shown) => shown
                       | _ => []
                       end) H)).
Qed.

(** X6: a delete touches no entry but the file and its image folder. *)
Theorem delete_file_frame (filename : list Z) (fs : gmap (list Z) node)
    (k : list Z) :
  k <> filename -> k <> filename ++ lit "_images" ->
  snd (delete_file filename fs) !! k = fs !! k.
Proof.
  intros Hf Hi. rewrite delete_file_unfold.
  destruct (fs !! filename) as [[data|d]|]; [|reflexivity|];
    destruct (fs !! (filename ++ lit "_images")) as [[data'|d']|];
    cbn [snd]; rewrite ?lookup_delete_ne by congruence; reflexivity.
Qed.

Lemma delete_file_frame_witness :
  snd (delete_file (lit "letter.docx") Examples.viewed) !! lit "notes.txt"
  = Examples.viewed !! lit "notes.txt".
Proof.
  apply (delete_file_frame (lit "letter.docx") Examples.viewed
           (lit "notes.txt")); discriminate.
Defined.

(** X7: every handler keeps the shape of the directory: when folders
    have names that end in [_images] before a request, they have after
    it, whether the handler returns or raises. *)
Theorem handlers_keep_image_folders (fs : gmap (list Z) node) :
  image_folders fs ->
  image_folders (snd (home fs))
  /\ (forall filename data,
        image_folders (snd (upload_file filename data fs)))
  /\ (forall filename, image_folders (snd (view_file L filename fs)))
  /\ (forall filename, image_folders (snd (download_text L filename fs)))
  /\ (forall filename new_content,
        image_folders (snd (update_file filename new_content fs)))
  /\ (forall filename, image_folders (snd (delete_file filename fs))).
Proof.
  intros Hfs. split; [exact Hfs|].
  split; [intros; apply upload_file_image_folders, Hfs|].
  split; [intros; apply view_file_image_folders, Hfs|].
  split; [intros; rewrite download_text_store; exact Hfs|].
  split; [intros; apply update_file_image_folders, Hfs|].
  intros; apply delete_file_image_folders, Hfs.
Qed.

End Frames.

Lemma handlers_keep_image_folders_witness :
  image_folders
    (snd (view_file Examples.documents (lit "letter.docx") Examples.shelf)).
Proof.
  apply (proj1 (proj2 (proj2 (handlers_keep_image_folders Examples.documents
           Examples.shelf image_folders_shelf)))).
Defined.

(** ** Extensions of file names *)
Section Extensions.




End Extensions.

(** ** The tidied text is tidy *)
Section Tidy.

Lemma split_app_sep sep a r :
  Py.split sep (a ++ sep :: r) = Py.split sep a ++ Py.split sep r.
Proof.
  induction a as [|c a IH]; cbn [app Py.split].
  - rewrite Z.eqb_refl. reflexivity.
  - rewrite IH. destruct (c =? sep); [reflexivity|].
    pose proof (split_nonempty sep a) as Hne.
    destruct (Py.split sep a); [contradiction|reflexivity].
Qed.

Lemma split_line_free l r :
  nl_free l -> Py.split Py.NL (l ++ Py.NL :: r) = l :: Py.split Py.NL r.
Proof.
  induction l as [|c l IH]; intros H; [reflexivity|].
  simpl in H. apply andb_prop in H as [Hc Hl]. apply negb_true_iff in Hc.
  cbn [app Py.split]. unfold Re.is_nl in Hc. rewrite Hc, (IH Hl).
  reflexivity.
Qed.

Lemma split_one_line l : nl_free l -> Py.split Py.NL l = [l].
Proof.
  induction l as [|c l IH]; intros H; [reflexivity|].
  simpl in H. apply andb_prop in H as [Hc Hl]. apply negb_true_iff in Hc.
  cbn [Py.split]. unfold Re.is_nl in Hc. rewrite Hc, (IH Hl). reflexivity.
Qed.

Lemma split_join ls :
  ls <> [] -> Forall (fun l => nl_free l) ls ->
  Py.split Py.NL (Py.join [Py.NL] ls) = ls.
Proof.
  induction ls as [|l ls IH]; intros Hne Hfree; [contradiction|].
  inversion Hfree as [|? ? Hl Hls]; subst.
  destruct ls as [|m ls].
  - apply split_one_line, Hl.
  - rewrite join_nl_cons, (split_line_free l _ Hl), IH;
      [reflexivity|discriminate|exact Hls].
Qed.

Lemma squeeze_rest_cons b l rest :
  rest <> [] ->
  Lines.squeeze_rest b (l :: rest)
  = if Lines.all_space l
    then if b then Lines.squeeze_rest true rest
         else [] :: Lines.squeeze_rest true rest
    else l :: Lines.squeeze_rest false rest.
Proof. destruct rest; [contradiction|reflexivity]. Qed.

Lemma calm_rest_cons b l rest :
  rest <> [] ->
  Lines.calm_rest b (l :: rest)
  = if Lines.all_space l
    then negb b && is_nil l && Lines.calm_rest true rest
    else Lines.calm_rest false rest.
Proof. destruct rest; [contradiction|reflexivity]. Qed.

Lemma squeeze_rest_free b ls :
  Forall (fun l => nl_free l) ls ->
  Forall (fun l => nl_free l) (Lines.squeeze_rest b ls).
Proof.
  intros H. revert b. induction H as [|l ls Hl Hls IH]; intros b.
  - constructor.
  - destruct ls as [|m ls]; [constructor; [exact Hl|constructor]|].
    rewrite squeeze_rest_cons by discriminate.
    destruct (Lines.all_space l); [destruct b|];
      try (constructor; [first [exact Hl|reflexivity]|]); apply IH.
Qed.

Lemma calm_squeeze_rest b ls :
  Lines.calm_rest b (Lines.squeeze_rest b ls) = true.
Proof.
  revert b. induction ls as [|l ls IH]; intros b; [reflexivity|].
  destruct ls as [|m ls]; [reflexivity|].
  rewrite squeeze_rest_cons by discriminate.
  pose proof (squeeze_rest_nonempty true (m :: ls) ltac:(discriminate)) as H1.
  pose proof (squeeze_rest_nonempty false (m :: ls) ltac:(discriminate)) as H2.
  destruct (Lines.all_space l) eqn:El.
  - destruct b; [apply IH|].
    rewrite calm_rest_cons by exact H1. cbn. apply IH.
  - rewrite calm_rest_cons by exact H2. rewrite El. apply IH.
Qed.

(** What [Lines.collapse] gives is calm. *)
Lemma calm_collapse_out s : Lines.calm (Lines.collapse s) = true.
Proof.
  unfold Lines.calm, Lines.collapse.
  pose proof (split_lines_free s) as Hfree.
  pose proof (split_nonempty Py.NL s) as Hne.
  destruct (Py.split Py.NL s) as [|l ls]; [contradiction|].
  inversion Hfree as [|? ? Hl Hls]; subst. cbn [Lines.squeeze].
  rewrite split_join;
    [apply calm_squeeze_rest|discriminate|
     constructor; [exact Hl|apply squeeze_rest_free, Hls]].
Qed.

Lemma collapse_collapse s :
  Lines.collapse (Lines.collapse s) = Lines.collapse s.
Proof. apply calm_collapse, calm_collapse_out. Qed.


Lemma squeeze_rest_snoc b ls l :
  exists pre, Lines.squeeze_rest b (ls ++ [l]) = pre ++ [l].
Proof.
  revert b. induction ls as [|m ls IH]; intros b.
  - exists []. reflexivity.
  - cbn [app]. rewrite squeeze_rest_cons by (destruct ls; discriminate).
    destruct (Lines.all_space m); [destruct b|].
    + apply IH.
    + destruct (IH true) as [pre ->]. exists ([] :: pre). reflexivity.
    + destruct (IH false) as [pre ->]. exists (m :: pre). reflexivity.
Qed.

Lemma join_snoc sep pre l : exists y, Py.join sep (pre ++ [l]) = y ++ l.
Proof.
  induction pre as [|p pre [y Hy]].
  - exists []. reflexivity.
  - cbn [app]. rewrite join_cons_ne by (destruct pre; discriminate).
    rewrite Hy. exists (p ++ sep ++ y). rewrite <- !app_assoc. reflexivity.
Qed.

(** Collapsing keeps a last character that is not white space. *)
Lemma collapse_last t x :
  Py.isspace x = false -> exists y, Lines.collapse (t ++ [x]) = y ++ [x].
Proof.
  intros Hx. unfold Lines.collapse.
  assert (Hnl : Py.NL ∉ [x]).
  { intros H. apply list_elem_of_singleton in H. subst x. discriminate Hx. }
  destruct (split_app_free Py.NL t [x] Hnl) as (init & lst & _ & ->).
  assert (H : exists pre, Lines.squeeze (init ++ [lst ++ [x]])
                          = pre ++ [lst ++ [x]]).
  { destruct init as [|l0 init]; [exists []; reflexivity|].
    cbn [app Lines.squeeze].
    destruct (squeeze_rest_snoc false init (lst ++ [x])) as [pre ->].
    exists (l0 :: pre). reflexivity. }
  destruct H as [pre ->].
  destruct (join_snoc [Py.NL] pre (lst ++ [x])) as [y ->].
  exists (y ++ lst). rewrite <- app_assoc. reflexivity.
Qed.

Lemma rstrip_last y x : Py.isspace x = false -> Py.rstrip (y ++ [x]) = y ++ [x].
Proof.
  intros Hx. unfold Py.rstrip. rewrite rev_app_distr. cbn [rev app Py.lstrip].
  rewrite Hx. cbn [rev]. rewrite rev_involutive. reflexivity.
Qed.

Lemma lstrip_first x r : Py.isspace x = false -> Py.lstrip (x :: r) = x :: r.
Proof. intros Hx. cbn [Py.lstrip]. rewrite Hx. reflexivity. Qed.

(** Stripped text is empty or ends with a character that is not white
    space. *)
Lemma strip_last s :
  Py.strip s = [] \/ exists y z, Py.strip s = y ++ [z] /\ Py.isspace z = false.
Proof.
  unfold Py.strip, Py.rstrip.
  pose proof (lstrip_head (rev (Py.lstrip s))) as H.
  destruct (Py.lstrip (rev (Py.lstrip s))) as [|z u]; [left; reflexivity|].
  right. exists (rev u), z. split; [reflexivity|exact H].
Qed.

Lemma strip_fixed x r y z :
  Py.isspace x = false -> Py.isspace z = false -> x :: r = y ++ [z] ->
  Py.strip (x :: r) = x :: r.
Proof.
  intros Hx Hz E. unfold Py.strip. rewrite (lstrip_first x r Hx), E.
  apply rstrip_last, Hz.
Qed.

Lemma collapse_nil : Lines.collapse [] = [].
Proof. reflexivity. Qed.

Lemma strip_tidy content : Py.strip (tidy content) = tidy content.
Proof.
  rewrite tidy_collapse.
  pose proof (strip_head content) as Hh.
  destruct (strip_last content) as [E|(y & z & E & Hz)].
  - rewrite E. reflexivity.
  - destruct (Py.strip content) as [|x r] eqn:Es.
    + reflexivity.
    + destruct (collapse_head x r Hh) as [t Ht].
      rewrite sub_blank_lines in Ht.
      destruct (collapse_last y z Hz) as [w Hw].
      rewrite <- E in Hw. rewrite Ht in Hw |- *.
      exact (strip_fixed x t w z Hh Hz Hw).
Qed.

Lemma calm_rest_blank_pair b pre l post :
  Lines.calm_rest b (pre ++ [] :: [] :: l :: post) = false.
Proof.
  revert b. induction pre as [|p pre IH]; intros b.
  - cbn. destruct b; reflexivity.
  - cbn [app]. rewrite calm_rest_cons by (destruct pre; discriminate).
    rewrite !IH. destruct (Lines.all_space p); [apply andb_false_r|reflexivity].
Qed.

Lemma calm_three_newlines a b :
  Lines.calm (a ++ [Py.NL; Py.NL; Py.NL] ++ b) = false.
Proof.
  unfold Lines.calm. cbn [app]. rewrite split_app_sep.
  change (Py.split Py.NL (Py.NL :: Py.NL :: b))
    with ([] :: [] :: Py.split Py.NL b).
  pose proof (split_nonempty Py.NL a) as Ha.
  pose proof (split_nonempty Py.NL b) as Hb.
  destruct (Py.split Py.NL a) as [|l0 pre]; [contradiction|].
  destruct (Py.split Py.NL b) as [|l post]; [contradiction|].
  cbn [app]. apply calm_rest_blank_pair.
Qed.

(** X9: the text that the view shows after tidying is tidy: it has no
    white space at its ends, tidying it again changes nothing, and it
    never holds three newlines in a row. *)
Theorem tidy_is_tidy (content : list Z) :
  Py.strip (tidy content) = tidy content
  /\ tidy (tidy content) = tidy content
  /\ (forall a b, tidy content <> a ++ [Py.NL; Py.NL; Py.NL] ++ b).
Proof.
  split; [apply strip_tidy|]. split.
  - rewrite (tidy_collapse (tidy content)), strip_tidy, tidy_collapse.
    apply collapse_collapse.
  - intros a b H.
    pose proof (calm_collapse_out (Py.strip content)) as Hc.
    rewrite <- tidy_collapse, H, calm_three_newlines in Hc. discriminate.
Qed.

End Tidy.

(** ** Text files through the routes *)
Section TextRoutes.

Context (L : libs).











End TextRoutes.



(** ** The pictures of a DOCX file *)
Section Pictures.

Context (L : libs).









End Pictures.



(** ** References and folders *)
Section References.

Context (L : libs).

Lemma served_insert (filename : list Z) (fs : gmap (list Z) node)
    (images : list (list Z)) d (b data : list Z) :
  fs !! (filename ++ lit "_images") = Some (Dir d) ->
  Archive.served filename (fs, images) ->
  Archive.served filename
    (<[filename ++ lit "_images" := Dir (<[b := data]> d)]> fs, images).
Proof.
  intros Hd H p Hp. destruct (H p Hp) as (b' & data' & d' & -> & Hd' & Hb).
  cbn [fst] in Hd'. rewrite Hd in Hd'. injection Hd' as <-.
  destruct (decide (b = b')) as [<-|Hne].
  - exists b, data, (<[b := data]> d). split; [reflexivity|].
    split; [apply lookup_insert_eq|apply lookup_insert_eq].
  - exists b', data', (<[b := data]> d). split; [reflexivity|].
    split; [apply lookup_insert_eq|].
    rewrite lookup_insert_ne by assumption. exact Hb.
Qed.

Lemma extract_image_served filename entry fr r fr' :
  extract_image filename (filename ++ lit "_images") entry fr = (r, fr') ->
  Archive.served filename fr -> Archive.served filename fr'.
Proof.
  destruct entry as [file contents], fr as [fs images].
  unfold extract_image. destruct (is_media file).
  - unfold bind, on_store, Fs.write_in.
    destruct (fs !! (filename ++ lit "_images")) as [[data|d]|] eqn:Ei;
      [intros H; injection H as <- <-; auto| |
       intros H; injection H as <- <-; auto].
    intros H Hs.
    pose proof (served_insert filename fs images d (Py.basename file) []
                  Ei Hs) as H1.
    destruct contents as [e|data].
    + injection H as <- <-. exact H1.
    + rewrite lookup_insert_eq in H. unfold images_append in H.
      injection H as <- <-.
      pose proof (served_insert filename _ images _ (Py.basename file) data
                    (lookup_insert_eq _ _ _) H1) as H2.
      intros p Hp. cbn [snd] in Hp. apply elem_of_app in Hp as [Hp|Hp].
      * exact (H2 p Hp).
      * apply list_elem_of_singleton in Hp. subst p.
        eexists _, data, _. split; [reflexivity|].
        split; [apply lookup_insert_eq|apply lookup_insert_eq].
  - intros H. injection H as <- <-. auto.
Qed.

Lemma for_each_served filename namelist :
  forall fr r fr',
    for_each namelist
      (extract_image filename (filename ++ lit "_images")) fr = (r, fr') ->
    Archive.served filename fr -> Archive.served filename fr'.
Proof.
  induction namelist as [|entry rest IH]; intros fr r fr'.
  - intros H. injection H as <- <-. auto.
  - cbn [for_each]. unfold bind at 1.
    destruct (extract_image filename (filename ++ lit "_images") entry fr)
      as [[e|[]] fr1] eqn:E; intros H Hs;
      pose proof (extract_image_served _ _ _ _ _ E Hs) as H1.
    + injection H as <- <-. exact H1.
    + exact (IH _ _ _ H H1).
Qed.

Lemma served_nil (filename : list Z) (fs : gmap (list Z) node) :
  Archive.served filename (fs, []).
Proof. intros p Hp. cbn [snd] in Hp. inversion Hp. Qed.

Lemma view_content_served filename ext fs r fr' :
  view_content L filename ext (fs, []) = (r, fr') ->
  Archive.served filename fr'.
Proof.
  destruct fr' as [fs' images]. intros H.
  destruct (decide (ext = lit "docx")) as [E|N].
  2:{ destruct (view_content_frame L _ _ _ _ _ _ H) as [_ Hx].
      destruct (Hx N) as [_ ->]. apply served_nil. }
  revert H. unfold view_content.
  destruct (decide (ext = lit "txt")) as [E1|_];
    [rewrite E in E1; discriminate E1|].
  destruct (decide (ext = lit "pdf")) as [E2|_];
    [rewrite E in E2; discriminate E2|].
  destruct (decide (ext = lit "docx")) as [_|N3]; [|contradiction].
  unfold bind at 1. unfold on_store at 1, open_with at 1.
  destruct (fs !! filename) as [n|];
    [|intros H; injection H as <- <- <-; apply served_nil].
  destruct (Document L n) as [e|texts];
    [intros H; injection H as <- <- <-; apply served_nil|].
  unfold bind at 1. unfold on_store at 1.
  destruct (Fs.makedirs (filename ++ lit "_images") fs) as [[e|[]] fs1];
    [intros H; injection H as <- <- <-; apply served_nil|].
  unfold bind at 1. unfold on_store at 1, open_with at 1.
  destruct (fs1 !! filename) as [n1|];
    [|intros H; injection H as <- <- <-; apply served_nil].
  destruct (ZipFile L n1) as [e|namelist];
    [intros H; injection H as <- <- <-; apply served_nil|].
  unfold bind at 1.
  destruct (for_each namelist
              (extract_image filename (filename ++ lit "_images"))
              (fs1, [])) as [[e|[]] [fs2 images2]] eqn:Ef;
    pose proof (for_each_served _ _ _ _ _ Ef (served_nil filename fs1))
      as H2.
  - intros H. injection H as <- <- <-. exact H2.
  - unfold bind, get_images.
    match goal with
    | |- context [if ?b then _ else _] => destruct b
    end; intros H; injection H as <- <- <-; exact H2.
Qed.

(** X14: every image reference that a view page shows is the path of a
    file that is in the image folder after the view, also when the
    view ends with an error. *)
Theorem view_references_stored (filename : list Z)
    (fs : gmap (list Z) node) name content images :
  fst (view_file L filename fs) = inr (ViewPage name content images) ->
  forall p, p ∈ images ->
    exists b data d,
      p = lit "/uploads/" ++ filename ++ lit "_images/" ++ b
      /\ snd (view_file L filename fs) !! (filename ++ lit "_images")
         = Some (Dir d)
      /\ d !! b = Some data.
Proof.
  unfold view_file. destruct (negb (Fs.exists_ fs filename));
    [intros H; discriminate H|].
  unfold view_try, bind.
  destruct (view_content L filename (Py.extension filename) (fs, []))
    as [[e|c] [fs' shown]] eqn:E;
    pose proof (view_content_served _ _ _ _ _ E) as Hs;
    intros H;
    pose proof (f_equal (fun r => match r with
                                  | inr (ViewPage _ _ i) => i
                                  | _ => []
                                  end) H) as Hi;
    cbn beta iota in Hi; subst images; exact Hs.
Qed.

End References.

Lemma view_references_stored_witness :
  exists b data d,
    lit "/uploads/letter.docx_images/image2.jpg"
    = lit "/uploads/" ++ lit "letter.docx" ++ lit "_images/" ++ b
    /\ snd (view_file Samples.album (lit "letter.docx") Examples.shelf)
         !! (lit "letter.docx" ++ lit "_images")
       = Some (Dir d)
    /\ d !! b = Some data.
Proof.
  apply (view_references_stored Samples.album (lit "letter.docx")
           Examples.shelf (lit "letter.docx") (lit "Holiday")
           [lit "/uploads/letter.docx_images/image1.png";
            lit "/uploads/letter.docx_images/image2.jpg"]).
  - vm_compute. reflexivity.
  - apply list_elem_of_further, list_elem_of_here.
Defined.

(** ** A view, then a delete *)
Section Cleanup.

Context (L : libs).






(** X16: the view of a file whose extension is not txt, pdf or docx
    shows the fixed text for unsupported formats, without images, and
    changes nothing. *)
Theorem view_unsupported (filename : list Z) (fs : gmap (list Z) node) :
  is_Some (fs !! filename) ->
  Py.extension filename ∉ [lit "txt"; lit "pdf"; lit "docx"] ->
  view_file L filename fs
  = (inr (ViewPage filename (lit "[Unsupported file format for preview.]") []),
     fs).
Proof.
  intros Hn Hext.
  rewrite (view_file_shows L fs filename
             (lit "[Unsupported file format for preview.]") [] fs Hn).
  - reflexivity.
  - unfold view_content.
    repeat (apply not_elem_of_cons in Hext as [? Hext]).
    repeat (destruct (decide _); [contradiction|]). reflexivity.
Qed.

End Cleanup.


Lemma view_unsupported_witness :
  view_file Examples.documents (lit "file.xyz") Examples.shelf
  = (inr (ViewPage (lit "file.xyz")
            (lit "[Unsupported file format for preview.]") []),
     Examples.shelf).
Proof.
  apply (view_unsupported Examples.documents (lit "file.xyz") Examples.shelf).
  - vm_compute. eauto.
  - vm_compute. intros H.
    repeat (apply elem_of_cons in H as [H|H]; [discriminate|]).
    inversion H.
Defined.

(** ** The listing after an upload and after a delete *)
Section ListingFollows.


End ListingFollows.


(** ** The pages of a PDF in the view *)
Section PdfPages.

Context (L : libs).

Lemma calm_rest_head b f R :
  Lines.all_space f = false ->
  Lines.calm_rest b (f :: R) = Lines.calm_rest false R.
Proof.
  intros Hf. destruct R as [|m R]; [reflexivity|].
  rewrite calm_rest_cons by discriminate. rewrite Hf. reflexivity.
Qed.

Lemma calm_rest_app b A l B :
  Lines.all_space l = false -> B <> [] ->
  Lines.calm_rest b (A ++ l :: B)
  = Lines.calm_rest b (A ++ [l]) && Lines.calm_rest false B.
Proof.
  intros Hl HB. revert b. induction A as [|p A IH]; intros b.
  - cbn [app]. rewrite calm_rest_cons by exact HB. rewrite Hl. reflexivity.
  - cbn [app]. rewrite !calm_rest_cons by (destruct A; discriminate).
    rewrite !IH. destruct (Lines.all_space p); [|reflexivity].
    rewrite andb_assoc. reflexivity.
Qed.

Lemma split_first_line x r :
  Py.isspace x = false ->
  exists f R, Py.split Py.NL (x :: r) = f :: R /\ Lines.all_space f = false.
Proof.
  intros Hx. cbn [Py.split].
  destruct (Z.eqb_spec x Py.NL) as [->|_]; [discriminate Hx|].
  pose proof (split_nonempty Py.NL r) as Hne.
  destruct (Py.split Py.NL r) as [|h t]; [contradiction|].
  exists (x :: h), t. split; [reflexivity|]. cbn. rewrite Hx. reflexivity.
Qed.

Lemma split_last_line y z :
  Py.isspace z = false ->
  exists init l,
    Py.split Py.NL (y ++ [z]) = init ++ [l] /\ Lines.all_space l = false.
Proof.
  intros Hz.
  assert (Hnl : Py.NL ∉ [z]).
  { intros H. apply list_elem_of_singleton in H. subst z. discriminate Hz. }
  destruct (split_app_free Py.NL y [z] Hnl) as (init & lst & _ & ->).
  exists init, (lst ++ [z]). split; [reflexivity|].
  unfold Lines.all_space. rewrite forallb_app. cbn. rewrite Hz.
  apply andb_false_r.
Qed.

Lemma calm_first_line x r b :
  Py.isspace x = false ->
  match Py.split Py.NL (x :: r) with
  | [] => True
  | f :: R => Lines.calm_rest b (f :: R) = Lines.calm (x :: r)
  end.
Proof.
  intros Hx. unfold Lines.calm.
  destruct (split_first_line x r Hx) as (f & R & -> & Hf).
  apply calm_rest_head, Hf.
Qed.

(** Two trimmed texts with one empty line between them. *)
Lemma calm_paragraphs k t :
  Pages.trimmed k -> Pages.trimmed t ->
  Lines.calm (k ++ [Py.NL; Py.NL] ++ t) = Lines.calm k && Lines.calm t.
Proof.
  intros (x & r & y & z & Ek & Ek' & Hx & Hz)
         (x' & r' & _ & _ & Et & _ & Hx' & _).
  pose proof (calm_first_line x' r' true Hx') as Ht.
  destruct (split_first_line x' r' Hx') as (f' & R' & Es' & Hf').
  rewrite Es' in Ht. rewrite <- Et in Ht, Es'.
  destruct (split_last_line y z Hz) as (init & l & Es & Hl).
  rewrite <- Ek' in Es.
  unfold Lines.calm at 1 2. cbn [app]. rewrite split_app_sep.
  change (Py.split Py.NL (Py.NL :: t)) with ([] :: Py.split Py.NL t).
  rewrite Es, Es'.
  assert (HB : Lines.calm_rest false ([] :: f' :: R') = Lines.calm t).
  { rewrite calm_rest_cons by discriminate. exact Ht. }
  destruct init as [|f init]; cbn [app].
  - rewrite HB. reflexivity.
  - rewrite <- app_assoc. cbn [app].
    rewrite (calm_rest_app false init l ([] :: f' :: R') Hl
               ltac:(discriminate)).
    rewrite HB. reflexivity.
Qed.

Lemma trimmed_join k t :
  Pages.trimmed k -> Pages.trimmed t ->
  Pages.trimmed (k ++ [Py.NL; Py.NL] ++ t).
Proof.
  intros (x & r & _ & _ & -> & _ & Hx & _)
         (_ & _ & y' & z' & _ & -> & _ & Hz').
  exists x, (r ++ [Py.NL; Py.NL] ++ y' ++ [z']),
         ((x :: r) ++ [Py.NL; Py.NL] ++ y'), z'.
  split; [reflexivity|]. split; [|split; assumption].
  rewrite <- !app_assoc. reflexivity.
Qed.

Lemma join_pages k kept :
  Forall Pages.trimmed (k :: kept) ->
  Forall (fun t => Lines.calm t = true) (k :: kept) ->
  Pages.trimmed (Py.join [Py.NL; Py.NL] (k :: kept))
  /\ Lines.calm (Py.join [Py.NL; Py.NL] (k :: kept)) = true.
Proof.
  revert k. induction kept as [|k2 kept IH]; intros k Ht Hc.
  - inversion Ht; subst. inversion Hc; subst. split; assumption.
  - inversion Ht as [|? ? Hk Ht']; subst.
    inversion Hc as [|? ? Hck Hc']; subst.
    destruct (IH k2 Ht' Hc') as [Htj Hcj].
    rewrite join_cons. split.
    + apply trimmed_join; assumption.
    + rewrite calm_paragraphs by assumption. rewrite Hck, Hcj. reflexivity.
Qed.

Lemma trimmed_strip s : Pages.trimmed s -> Py.strip s = s.
Proof.
  intros (x & r & y & z & -> & E & Hx & Hz).
  exact (strip_fixed x r y z Hx Hz E).
Qed.

Lemma strip_trimmed s : Py.blank s = false -> Pages.trimmed (Py.strip s).
Proof.
  unfold Py.blank. intros Hb. pose proof (strip_head s) as Hh.
  destruct (strip_last s) as [E|(y & z & E & Hz)];
    [rewrite E in Hb; discriminate Hb|].
  destruct (Py.strip s) as [|x r]; [discriminate Hb|].
  exists x, r, y, z. auto.
Qed.

Lemma kept_trimmed pages : Forall Pages.trimmed (Pages.kept pages).
Proof.
  unfold Pages.kept. apply Forall_fmap, Forall_forall. intros t Ht.
  apply list_elem_of_filter in Ht as [Hn _]. cbn. apply strip_trimmed.
  unfold nonblank in Hn. destruct (Py.blank t); [contradiction|reflexivity].
Qed.

(** X18: the view of a PDF shows the trimmed texts of the pages that
    are not blank with one empty line between one page and the next;
    this holds whenever no page has two blank lines in a row or a blank
    line that is not empty inside its text, and a document without any
    text shows the placeholder. *)
Theorem view_pdf_pages (filename : list Z) (fs : gmap (list Z) node) n pages :
  Py.extension filename = lit "pdf" ->
  fs !! filename = Some n ->
  fitz_open L n = inr pages ->
  Forall (fun t => Lines.calm t = true) (Pages.kept pages) ->
  view_file L filename fs
  = (inr (ViewPage filename
            (if is_nil (Pages.kept pages)
             then lit "[No readable content found.]"
             else Py.join [Py.NL; Py.NL] (Pages.kept pages)) []), fs).
Proof.
  intros E Hn Hp Hc.
  assert (Hv : view_content L filename (Py.extension filename) (fs, [])
               = (inr (Py.join [Py.NL; Py.NL] (Pages.kept pages)), (fs, []))).
  { unfold view_content. rewrite E.
    destruct (decide (lit "pdf" = lit "txt")) as [D|_]; [discriminate D|].
    destruct (decide (lit "pdf" = lit "pdf")) as [_|D]; [|contradiction].
    unfold bind, on_store, open_with. rewrite Hn, Hp. reflexivity. }
  rewrite (view_file_shows L fs filename _ [] fs (ex_intro _ n Hn) Hv).
  pose proof (kept_trimmed pages) as Ht.
  destruct (Pages.kept pages) as [|k kept]; [reflexivity|].
  destruct (join_pages k kept Ht Hc) as [Htj Hcj].
  rewrite (trimmed_strip _ Htj), (calm_collapse _ Hcj).
  destruct Htj as (x & r & _ & _ & -> & _). reflexivity.
Qed.

End PdfPages.

Lemma view_pdf_pages_witness :
  view_file Samples.report (lit "doc.pdf") Examples.shelf
  = (inr (ViewPage (lit "doc.pdf")
            (lit "Title" ++ [10] ++ lit "first page" ++ [10; 10]
             ++ lit "second" ++ [10] ++ lit "page" ++ [10; 10]
             ++ lit "third" ++ [10] ++ lit "page") []),
     Examples.shelf).
Proof.
  apply (view_pdf_pages Samples.report (lit "doc.pdf") Examples.shelf
           (File (lit "%PDF-1.7"))
           [lit "Title" ++ [10] ++ lit "first page" ++ [10];
            [10];
            [32] ++ lit "second" ++ [10] ++ lit "page" ++ [10; 10];
            lit "third" ++ [10] ++ lit "page"]).
  - reflexivity.
  - vm_compute. reflexivity.
  - reflexivity.
  - vm_compute. repeat constructor.
Defined.

(** ** The name of the attachment *)
Section Attachment.

(** X19: the attachment of a download is named after the part of the
    file name before its last dot; a name that has only dots before its
    last dot, as [.txt] has, is taken whole. *)
Theorem attachment_root (base ext : list Z) :
  47 ∉ base -> 47 ∉ ext -> 46 ∉ ext ->
  Py.splitext_root (base ++ 46 :: ext)
  = if Py.all_dots base then base ++ 46 :: ext else base.
Proof.
  intros Hb He Hd. destruct (Py.all_dots base) eqn:Hdots;
    [|apply splitext_root_plain; assumption].
  unfold Py.splitext_root, Py.rfind.
  rewrite (rfind_from_free 47 0 (base ++ 46 :: ext)).
  2:{ intros H. apply elem_of_app in H as [H|H]; [contradiction|].
      apply elem_of_cons in H as [H|H]; [discriminate|contradiction]. }
  rewrite (rfind_from_last 46 0 base ext Hd) by lia.
  destruct (Z.ltb_spec (-1) (0 + Z.of_nat (List.length base))); [|lia].
  unfold Py.from, Py.upto. change (Z.to_nat (-1 + 1)) with 0%nat.
  rewrite drop_0.
  replace (Z.to_nat (0 + Z.of_nat (List.length base)))
    with (List.length base) by lia.
  rewrite take_app_length, Hdots. reflexivity.
Qed.

Lemma attachment_root_witness :
  Py.splitext_root (lit "annual.report" ++ 46 :: lit "pdf")
  = lit "annual.report".
Proof.
  apply (attachment_root (lit "annual.report") (lit "pdf"));
    vm_compute; intros H;
    repeat (apply elem_of_cons in H as [H|H]; [discriminate|]);
    inversion H.
Defined.

End Attachment.

Lemma view_file_frame_witness :
  snd (view_file Samples.album (lit "letter.docx") Examples.shelf)
    !! lit "notes.txt"
  = Examples.shelf !! lit "notes.txt".
Proof.
  apply (proj1 (view_file_frame Samples.album (lit "letter.docx")
                  Examples.shelf)).
  discriminate.
Defined.
